(** * data-labeler: the assignment, ledger, progress and export logic of tool.py

    A shallow embedding of [tool.py].  Python integers are [Z], Python lists
    are lists, the label dictionary is a [gmap] keyed by [str(idx)], the
    assignment dictionary keeps Python's insertion order, and code that can
    raise returns a [result]. *)

From Stdlib Require Import QArith_base Ascii.
From stdpp Require Import gmap strings list list_numbers fin_maps pretty.

Local Open Scope Z_scope.

(** ** Exceptions and results *)

Inductive exn :=
  | ZeroDivisionError
  | JSONDecodeError
  | KeyError
  | IndexError
  | FileNotFoundError
  | UnidentifiedImageError.

Inductive result (A : Type) :=
  | Ok (a : A)
  | Raise (e : exn).
Arguments Ok {A} a.
Arguments Raise {A} e.

#[global] Instance result_ret : MRet result := λ A a, Ok a.
#[global] Instance result_bind : MBind result := λ A B f m,
  match m with
  | Ok a => f a
  | Raise e => Raise e
  end.

(** ** Python primitives *)

(** [str(i)] of an integer. *)
Definition py_str (i : Z) : string := pretty i.

(** [list(range(start, stop))]: empty when [stop <= start]. *)
Definition py_range (start stop : Z) : list Z := seqZ start (stop - start).

(** [a // b] on integers: floor division, which is what [Z.div] computes. *)
Definition py_floordiv (a b : Z) : result Z :=
  if decide (b = 0) then Raise ZeroDivisionError else Ok (Z.div a b).

(** [a / b] on integers; the quotient is kept as an exact fraction. *)
Definition py_truediv (a b : Z) : result Q :=
  if decide (b = 0) then Raise ZeroDivisionError
  else Ok (Qmake (a * Z.sgn b) (Z.to_pos (Z.abs b))).

(** [l[i]]: a negative index counts from the end. *)
Definition py_index {A} (l : list A) (i : Z) : result A :=
  let n := Z.of_nat (length l) in
  let j := if bool_decide (i < 0) then n + i else i in
  if bool_decide (0 ≤ j < n) then
    match l !! Z.to_nat j with
    | Some x => Ok x
    | None => Raise IndexError
    end
  else Raise IndexError.

(** ** Dictionaries in insertion order

    [user_assignments] is iterated with [.items()] and its keys are offered
    in order, so it is kept as an association list: [d[k] = v] overwrites in
    place when [k] is a key and appends otherwise. *)

Fixpoint dict_set {V} (k : string) (v : V) (d : list (string * V)) : list (string * V) :=
  match d with
  | [] => [(k, v)]
  | (k', v') :: d' =>
      if decide (k' = k) then (k, v) :: d' else (k', v') :: dict_set k v d'
  end.

Fixpoint dict_get {V} (k : string) (d : list (string * V)) : option V :=
  match d with
  | [] => None
  | (k', v') :: d' => if decide (k' = k) then Some v' else dict_get k d'
  end.

(** ** assign_data (tool.py, lines 86-96) *)

(** The key [f"user_{n}"]. *)
Definition user_key (n : Z) : string := "user_" +:+ py_str n.

Definition assign_data (total_samples num_users : Z) : result (list (string * list Z)) :=
  samples_per_user ← py_floordiv total_samples num_users;
  Ok (foldl
        (λ assignments i,
           let start_idx := i * samples_per_user in
           let end_idx :=
             if bool_decide (i < num_users - 1)
             then start_idx + samples_per_user
             else total_samples in
           dict_set (user_key (i + 1)) (py_range start_idx end_idx) assignments)
        [] (py_range 0 num_users)).

(** The block of labeler [i + 1], as the loop body computes it. *)
Definition block (total_samples num_users : Z) (i : Z) : list Z :=
  let samples_per_user := Z.div total_samples num_users in
  py_range (i * samples_per_user)
    (if bool_decide (i < num_users - 1)
     then i * samples_per_user + samples_per_user
     else total_samples).

(** ** Data model *)

(** A sample: [item['instruction']] and [item['output']] are read without a
    guard (lines 114-115 and 295-296), so both fields are there. *)
Record sample := Sample { instruction : string; output : string }.

(** A label entry is the dictionary stored under [str(idx)]; it is read with
    [.get], so a field may be missing.  The ledger is [st.session_state.labels]. *)
Abbreviation entry := (gmap string string).
Abbreviation ledger := (gmap string (gmap string string)).

(** ['선택되지 않음']: the option that stands for no label. *)
Definition UNSET : string := "선택되지 않음".

(** [label_options] (line 302). *)
Definition label_options : list string :=
  [UNSET; "정책"; "행정 절차"; "전문용어"; "X"]%string.

(** The dictionary written at lines 319-323. *)
Definition new_entry (label user timestamp : string) : entry :=
  {[ "label" := label; "user" := user; "timestamp" := timestamp ]}%string.

(** [st.session_state.labels.get(str(idx), {}).get('label')]: [None] is
    Python's [None]. *)
Definition label_value (labels : ledger) (idx : Z) : option string :=
  labels !! py_str idx ≫= λ label_data, label_data !! "label"%string.

(** [existing_label] (line 299): the stored label, ['선택되지 않음'] by default. *)
Definition existing_label (labels : ledger) (idx : Z) : string :=
  default UNSET (label_value labels idx).

(** ** The ledger update of labeler_interface (lines 312-323) *)

(** Lines 313-323, run once the selection is known to differ from the
    stored label. *)
Definition write_label (labels : ledger) (idx : Z) (label user now : string) : ledger :=
  if decide (label = UNSET) then
    if decide (is_Some (labels !! py_str idx))
    then delete (py_str idx) labels
    else labels
  else <[py_str idx := new_entry label user now]> labels.

(** One labeling action: [label] is what the select box returned for sample
    [idx]; line 312 leaves the ledger alone when it equals the stored label. *)
Definition set_label (labels : ledger) (idx : Z) (label user now : string) : ledger :=
  if decide (label ≠ existing_label labels idx)
  then write_label labels idx label user now
  else labels.

(** A labeling action as data, and a run of them. *)
Record action := Action {
  act_idx : Z;
  act_label : string;
  act_user : string;
  act_now : string
}.

Definition apply_action (labels : ledger) (a : action) : ledger :=
  set_label labels (act_idx a) (act_label a) (act_user a) (act_now a).

Definition run_actions (acts : list action) (labels : ledger) : ledger :=
  foldl apply_action labels acts.

(** The label chosen by the most recent action on [idx], if there is one. *)
Definition last_label (acts : list action) (idx : Z) : option string :=
  act_label <$> last (filter (λ a, act_idx a = idx) acts).

(** No entry stores the unset option, and every entry stores a label. *)
Definition ledger_inv (labels : ledger) : Prop :=
  ∀ k (e : entry), labels !! k = Some e →
    ∃ l, e !! "label"%string = Some l ∧ l ≠ UNSET.

(** ** calculate_progress (lines 98-106) *)

(** [label_value not in ['선택되지 않음', None]]. *)
Definition label_selected (labels : ledger) (idx : Z) : Prop :=
  ∃ l, label_value labels idx = Some l ∧ l ≠ UNSET.

#[global] Instance label_selected_dec labels idx : Decision (label_selected labels idx).
Proof.
  unfold label_selected. destruct (label_value labels idx) as [l|].
  - destruct (decide (l = UNSET)) as [->|Hne].
    + right. intros (l' & [= <-] & Hl'). done.
    + left. eauto.
  - right. intros (l' & [=] & _).
Defined.

Definition calculate_progress (labels : ledger) (user : string)
    (assigned_indices : list Z) : Z :=
  foldl (λ completed idx,
           if decide (label_selected labels idx) then completed + 1 else completed)
        0 assigned_indices.

(** [len(l)] as a Python integer. *)
Definition py_len {A} (l : list A) : Z := Z.of_nat (length l).

(** ** save_labels_to_excel (lines 108-119)

    The list [results] that the function builds and hands to the data frame;
    turning it into spreadsheet bytes is the renderer's part. *)

Record export_row := ExportRow {
  row_instruction : string;
  row_output : string;
  row_label : string;
  row_labeled_by : string;
  row_timestamp : string
}.

(** [label_data.get(key, '')] with [label_data = labels.get(str(idx), {})]. *)
Definition entry_field (labels : ledger) (idx : Z) (key : string) : string :=
  default ""%string (labels !! py_str idx ≫= λ label_data, label_data !! key).

Definition save_labels_to_excel (all_data : list sample) (labels : ledger) : list export_row :=
  imap (λ idx item,
          {| row_instruction := instruction item;
             row_output := output item;
             row_label := entry_field labels (Z.of_nat idx) "label";
             row_labeled_by := entry_field labels (Z.of_nat idx) "user";
             row_timestamp := entry_field labels (Z.of_nat idx) "timestamp" |})
       all_data.

(** ** Session state and the data directory *)

(** A decoded image; the tool only stores and shows it. *)
Definition image := string.

(** What a file of the data directory holds: a file is kept as the data it
    decodes to. *)
Inductive content :=
  | SamplesJson (data : list sample)
  | AssignmentsJson (assignments : list (string * list Z))
  | LabelsJson (labels : ledger)
  | ImageFile (img : image).

Definition LABEL_FILE : string := "labels.json".
Definition ASSIGNMENTS_FILE : string := "assignments.json".
Definition POLICY_IMAGE : string := "policy_image.png".

(** [st.session_state] together with the files of [DATA_DIR], keyed by their
    name inside the directory. *)
Record state := State {
  all_data : list sample;
  user_assignments : list (string * list Z);
  labels : ledger;
  policy_image : option image;
  files : gmap string content
}.

(** Statements run on the state and may raise; what was written before an
    exception stays written. *)
Definition M (A : Type) : Type := state → state * result A.

#[global] Instance M_ret : MRet M := λ A a st, (st, Ok a).
#[global] Instance M_bind : MBind M := λ A B f m st,
  match m st with
  | (st', Ok a) => f a st'
  | (st', Raise e) => (st', Raise e)
  end.

Definition get_state : M state := λ st, (st, Ok st).
Definition modify (f : state → state) : M unit := λ st, (f st, Ok tt).
Definition lift {A} (r : result A) : M A := λ st, (st, r).

Definition set_all_data (v : list sample) (st : state) : state :=
  State v (user_assignments st) (labels st) (policy_image st) (files st).
Definition set_user_assignments (v : list (string * list Z)) (st : state) : state :=
  State (all_data st) v (labels st) (policy_image st) (files st).
Definition set_labels (v : ledger) (st : state) : state :=
  State (all_data st) (user_assignments st) v (policy_image st) (files st).
Definition set_files (v : gmap string content) (st : state) : state :=
  State (all_data st) (user_assignments st) (labels st) (policy_image st) v.

(** [save_data(data, filename)] (lines 20-23). *)
Definition save_data (data : content) (filename : string) : M unit :=
  modify (λ st, set_files (<[filename := data]> (files st)) st).

(** [os.path.exists(os.path.join(DATA_DIR, name))]. *)
Definition path_exists (fs : gmap string content) (name : string) : bool :=
  bool_decide (is_Some (fs !! name)).

(** [Image.open(os.path.join(DATA_DIR, name))]. *)
Definition image_open (fs : gmap string content) (name : string) : result image :=
  match fs !! name with
  | Some (ImageFile img) => Ok img
  | Some _ => Raise UnidentifiedImageError
  | None => Raise FileNotFoundError
  end.

(** [get_policy_image()] (lines 40-45). *)
Definition get_policy_image (fs : gmap string content) : result (option image) :=
  if path_exists fs POLICY_IMAGE then
    img ← image_open fs POLICY_IMAGE; Ok (Some img)
  else Ok None.

(** [glob.glob(os.path.join(DATA_DIR, "*"))]: the pattern [*] does not match
    a name that starts with a dot. *)
Definition hidden (name : string) : bool :=
  match name with
  | String "."%char _ => true
  | _ => false
  end.

Definition glob_star (fs : gmap string content) : list string :=
  filter (λ name, hidden name = false) (map_to_list fs).*1.

(** What is stored under the policy image's name is an image. *)
Definition policy_file_is_image (fs : gmap string content) : Prop :=
  ∀ c, fs !! POLICY_IMAGE = Some c → ∃ img, c = ImageFile img.

(** ** clear_all_data (lines 60-84) *)

Definition clear_all_data : M bool :=
  st ← get_state;
  let has_policy := path_exists (files st) POLICY_IMAGE in
  policy ← lift (if has_policy
                 then img ← image_open (files st) POLICY_IMAGE; Ok (Some img)
                 else Ok None);
  modify (λ st,
    set_files
      (foldl (λ fs file,
                if negb (has_policy && bool_decide (file = POLICY_IMAGE))
                then delete file fs else fs)
             (files st) (glob_star (files st))) st);;
  match policy with
  | Some img => save_data (ImageFile img) POLICY_IMAGE
  | None => mret tt
  end;;
  modify (set_all_data []);;
  modify (set_user_assignments []);;
  modify (set_labels ∅);;
  mret true.

(** ** Upload (host_interface, lines 160-171) *)

(** The name [f"data_{timestamp}.json"]. *)
Definition data_file (timestamp : string) : string :=
  "data_" +:+ timestamp +:+ ".json".

Section Upload.
(** [json.loads(file.read())] followed by the iteration of [extend]:
    the samples of the file, or the exception raised. *)
Variable json_loads : string → result (list sample).

Fixpoint read_uploads (uploaded_files : list string) (new_data : list sample)
    : result (list sample) :=
  match uploaded_files with
  | [] => Ok new_data
  | file :: rest =>
      content ← json_loads file;
      read_uploads rest (new_data ++ content)
  end.

(** The body run when files were chosen and the upload button is pressed;
    [timestamp] is [datetime.now().strftime("%Y%m%d_%H%M%S")].  It returns
    the number of samples reported as added. *)
Definition upload (uploaded_files : list string) (timestamp : string) : M Z :=
  new_data ← lift (read_uploads uploaded_files []);
  save_data (SamplesJson new_data) (data_file timestamp);;
  modify (λ st, set_all_data (all_data st ++ new_data) st);;
  mret (py_len new_data).
End Upload.

(** ** Distribution and progress (host_interface, lines 178-194) *)

(** The body run when the distribution button is pressed. *)
Definition distribute (num_users : Z) : M unit :=
  st ← get_state;
  assignments ← lift (assign_data (py_len (all_data st)) num_users);
  modify (set_user_assignments assignments);;
  save_data (AssignmentsJson assignments) ASSIGNMENTS_FILE.

(** One written line: user, completed, total and the ratio. *)
Definition progress_line : Type := string * Z * Z * Q.

(** The loop of lines 191-194. *)
Fixpoint host_progress_lines (labels : ledger) (items : list (string * list Z))
    : result (list progress_line) :=
  match items with
  | [] => Ok []
  | (user, assigned_indices) :: rest =>
      let completed := calculate_progress labels user assigned_indices in
      progress ← py_truediv completed (py_len assigned_indices);
      lines ← host_progress_lines labels rest;
      Ok ((user, completed, py_len assigned_indices, progress) :: lines)
  end.

(** Lines 189-194: shown only when the ledger is not empty. *)
Definition host_progress : M (list progress_line) :=
  st ← get_state;
  if decide (labels st = ∅) then mret []
  else lift (host_progress_lines (labels st) (user_assignments st)).

(** ** show_info_popup (lines 210-214) *)

Definition show_info_popup (user : string) (assigned_indices : list Z)
    : M progress_line :=
  st ← get_state;
  let completed := calculate_progress (labels st) user assigned_indices in
  progress ← lift (if bool_decide (py_len assigned_indices > 0)
                   then py_truediv completed (py_len assigned_indices)
                   else Ok (Qmake 0 1));
  mret (user, completed, py_len assigned_indices, progress).

(** ** labeler_interface (lines 228-325) *)

(** An expander drawn for a sample, with the label its select box returned. *)
Record shown := Shown {
  shown_idx : Z;
  shown_item : sample;
  shown_label : string
}.

(** [label_options.index(existing_label) if existing_label in label_options
    else 0] (line 303). *)
Definition current_index (existing : string) : nat :=
  from_option fst 0%nat (list_find (λ o, o = existing) label_options).

Section Labeler.
(** The select box of sample [idx] given its default position, and the
    clock read when that sample is written. *)
Variable selectbox : Z → nat → string.
Variable clock : Z → string.

(** The body of the loop, lines 292-325. *)
Definition label_sample (user : string) (idx : Z) : M (list shown) :=
  st ← get_state;
  if bool_decide (idx < py_len (all_data st)) then
    item ← lift (py_index (all_data st) idx);
    let existing := existing_label (labels st) idx in
    let label := selectbox idx (current_index existing) in
    (if decide (label ≠ existing) then
       modify (λ st, set_labels (write_label (labels st) idx label user (clock idx)) st);;
       st' ← get_state;
       save_data (LabelsJson (labels st')) LABEL_FILE
     else mret tt);;
    mret [Shown idx item label]
  else mret [].

(** The loop of line 291. *)
Fixpoint label_loop (user : string) (assigned_indices : list Z) : M (list shown) :=
  match assigned_indices with
  | [] => mret []
  | idx :: rest =>
      here ← label_sample user idx;
      later ← label_loop user rest;
      mret (here ++ later)
  end.

(** [user] is the key picked in the user select box. *)
Definition labeler_interface (user : string) : M (list shown) :=
  st ← get_state;
  if decide (all_data st = []) then mret []
  else if decide (user_assignments st = []) then mret []
  else if decide (user = ""%string) then mret []
  else
    assigned_indices ←
      lift (from_option Ok (Raise KeyError) (dict_get user (user_assignments st)));
    show_info_popup user assigned_indices;;
    label_loop user assigned_indices.
End Labeler.

(** ** A run that leaves a labeler without samples

    One sample is stored, the host distributes it over two labelers, and the
    second labeler labels it. *)
Definition one_sample_state : state :=
  State [Sample "q" "a"] [] ∅ None ∅.

Definition two_labelers_state : state :=
  ((distribute 2;;
    label_sample (λ _ _, "X"%string) (λ _, "2026-01-01 10:00:00"%string) "user_2" 0)
     one_sample_state).1.

(** ** A parser for examples

    It accepts the text of an empty list and of one fixed sample, and raises
    on everything else. *)
Definition example_json_loads (file : string) : result (list sample) :=
  if decide (file = "[]"%string) then Ok []
  else if decide (file = "[{sample}]"%string) then Ok [Sample "q" "a"]
  else Raise JSONDecodeError.

(** A data directory with every kind of file, and a session that goes with it. *)
Definition example_files : gmap string content :=
  {[ LABEL_FILE := LabelsJson {[ "0"%string := new_entry "X" "user_1" "2026-01-01 10:00:00" ]};
     ASSIGNMENTS_FILE := AssignmentsJson [("user_1"%string, [0])];
     data_file "20260101_093000" := SamplesJson [Sample "q" "a"];
     POLICY_IMAGE := ImageFile "policy pixels" ]}.

Definition example_state : state :=
  State [Sample "q" "a"] [("user_1"%string, [0])]
        {[ "0"%string := new_entry "X" "user_1" "2026-01-01 10:00:00" ]}
        (Some "policy pixels"%string) example_files.

(** ** save_image and the policy upload (lines 33-38 and 136-139)

    An uploaded file is kept as what its bytes decode to; the uploader
    checks the extension only, so it need not be an image. *)
Definition save_image (image_file : content) (filename : string) : M string :=
  modify (λ st, set_files (<[filename := image_file]> (files st)) st);;
  mret filename.

Definition set_policy_image (v : option image) (st : state) : state :=
  State (all_data st) (user_assignments st) (labels st) v (files st).

(** The body run when the policy button is pressed with a file chosen. *)
Definition save_policy_image (policy_img : content) : M unit :=
  image_path ← save_image policy_img POLICY_IMAGE;
  st ← get_state;
  img ← lift (image_open (files st) image_path);
  modify (set_policy_image (Some img)).

(** A select box nobody touched: it returns [options[index]]. *)
Definition untouched_selectbox (idx : Z) (index : nat) : string :=
  default UNSET (label_options !! index).

(** The completed counts of all labelers of an assignment map, added up. *)
Definition total_completed (labels : ledger) (assignments : list (string * list Z)) : Z :=
  foldr (λ '(user, assigned_indices) sum,
           calculate_progress labels user assigned_indices + sum)
        0 assignments.

(** [st'] is [st], or differs from it in the ledger only, with that ledger
    written to [labels.json]. *)
Definition ledger_written (st st' : state) : Prop :=
  st' = st ∨
  st' = State (all_data st) (user_assignments st) (labels st') (policy_image st)
              (<[LABEL_FILE := LabelsJson (labels st')]> (files st)).

(** A session whose ledger holds a label that is not one of the options. *)
Definition foreign_label_state : state :=
  State [Sample "q" "a"] [("user_1"%string, [0])]
        {[ "0"%string := new_entry "old" "user_1" "2025-12-31 09:00:00" ]}
        None ∅.

(** * Properties *)

(** ** Dictionaries in insertion order *)

Section dict_facts.
Context {V : Type}.
Implicit Types (d : list (string * V)) (k : string) (v : V).

Lemma dict_set_fresh k v d : k ∉ d.*1 → dict_set k v d = d ++ [(k, v)].
Proof.
  induction d as [|[k' v'] d IH]; simpl; [done|].
  intros Hk. apply not_elem_of_cons in Hk as [Hne Hk].
  destruct (decide (k' = k)) as [->|_]; [done|]. by rewrite IH.
Qed.

(** Filling an empty dictionary under pairwise distinct keys lists the
    entries in the order they were written. *)
Lemma foldl_dict_set {I} (key : I → string) (val : I → V) (l : list I) :
  NoDup (key <$> l) →
  foldl (λ d i, dict_set (key i) (val i) d) [] l = (λ i, (key i, val i)) <$> l.
Proof.
  induction l as [|i l IH] using rev_ind; [done|].
  rewrite fmap_app. intros [Hl [Hdisj _]]%NoDup_app.
  rewrite foldl_app, fmap_app. simpl. rewrite IH by done.
  apply dict_set_fresh. rewrite <-list_fmap_compose. simpl.
  intros Hin. apply (Hdisj _ Hin). by constructor.
Qed.

Lemma dict_get_fmap {I} (key : I → string) (val : I → V) (l : list I) i :
  Inj (=) (=) key → i ∈ l →
  dict_get (key i) ((λ j, (key j, val j)) <$> l) = Some (val i).
Proof.
  intros Hinj. induction l as [|j l IH]; simpl.
  - by intros ?%elem_of_nil.
  - intros Hin. destruct (decide (key j = key i)) as [Heq|Hne].
    + by rewrite (Hinj _ _ Heq).
    + apply elem_of_cons in Hin as [->|Hin]; [done|]. by apply IH.
Qed.
End dict_facts.

(** ** assign_data *)

Lemma py_str_inj : Inj (=) (=) py_str.
Proof. unfold py_str. apply _. Qed.

Lemma user_key_inj : Inj (=) (=) user_key.
Proof.
  intros a b Hab. unfold user_key in Hab.
  apply py_str_inj. by apply (inj (String.app "user_")) in Hab.
Qed.

Lemma assign_data_blocks total_samples num_users :
  num_users ≠ 0 →
  assign_data total_samples num_users =
  Ok ((λ i, (user_key (i + 1), block total_samples num_users i)) <$> seqZ 0 num_users).
Proof.
  intros Hnum. unfold assign_data, py_floordiv.
  destruct (decide (num_users = 0)) as [|_]; [done|]. simpl. f_equal.
  replace (py_range 0 num_users) with (seqZ 0 num_users)
    by (unfold py_range; f_equal; lia).
  apply (foldl_dict_set (λ i, user_key (i + 1)) (block total_samples num_users)).
  apply NoDup_fmap_2; [|apply NoDup_seqZ].
  intros a b Hab. apply user_key_inj in Hab. lia.
Qed.

(** The blocks of the first [k] labelers, [k] below the number of labelers,
    are the first [k * base] indices. *)
Lemma concat_blocks total_samples num_users (k : nat) :
  0 ≤ total_samples → Z.of_nat k ≤ num_users - 1 →
  concat (block total_samples num_users <$> seqZ 0 (Z.of_nat k)) =
  seqZ 0 (Z.of_nat k * Z.div total_samples num_users).
Proof.
  intros Htot. induction k as [|k IH]; intros Hk; [done|].
  rewrite seqZ_S, fmap_app, concat_app, IH by lia. simpl.
  rewrite app_nil_r. unfold block, py_range.
  rewrite bool_decide_eq_true_2 by lia.
  assert (0 ≤ Z.div total_samples num_users) by (apply Z.div_pos; lia).
  replace (Z.of_nat (S k) * Z.div total_samples num_users)
    with (Z.of_nat k * Z.div total_samples num_users + Z.div total_samples num_users)
    by lia.
  rewrite seqZ_app by lia. do 2 f_equal; lia.
Qed.

(** C1. For [total_samples >= 0] and [num_labelers >= 1] the partition has
    the keys [user_1 .. user_<num_labelers>] in order; each labeler before
    the last holds the [base] consecutive indices that start at
    [(n - 1) * base], with [base = total_samples div num_labelers]; the last
    labeler holds the remaining [base + total_samples mod num_labelers]
    indices; and the blocks, read in labeler order, are exactly
    [0, ..., total_samples - 1], each index once.  In particular
    [partition(10, 3)] is [user_1: 0,1,2], [user_2: 3,4,5],
    [user_3: 6,7,8,9]. *)
Theorem assign_data_partition :
  (∀ total_samples num_labelers : Z,
     0 ≤ total_samples → 1 ≤ num_labelers →
     let base := Z.div total_samples num_labelers in
     ∃ assignments,
       assign_data total_samples num_labelers = Ok assignments ∧
       assignments.*1 = user_key <$> seqZ 1 num_labelers ∧
       (∀ n, 1 ≤ n < num_labelers →
          dict_get (user_key n) assignments = Some (seqZ ((n - 1) * base) base)) ∧
       dict_get (user_key num_labelers) assignments =
         Some (seqZ ((num_labelers - 1) * base)
                    (base + Z.modulo total_samples num_labelers)) ∧
       concat assignments.*2 = seqZ 0 total_samples)
  ∧ assign_data 10 3 =
    Ok [("user_1", [0; 1; 2]); ("user_2", [3; 4; 5]); ("user_3", [6; 7; 8; 9])]%string.
Proof.
  split; [|by vm_compute].
  intros total num Htot Hnum base.
  assert (Hbase : 0 ≤ base) by (apply Z.div_pos; lia).
  assert (Hdm : total = num * base + Z.modulo total num)
    by (apply Z.div_mod; lia).
  assert (Hmod : 0 ≤ Z.modulo total num < num) by (apply Z.mod_pos_bound; lia).
  assert (Hkey : Inj (=) (=) (λ i, user_key (i + 1))).
  { intros a b Hab. apply user_key_inj in Hab. lia. }
  eexists. split; [apply assign_data_blocks; lia|].
  split; [|split; [|split]].
  - rewrite <-list_fmap_compose.
    change (seqZ 1 num) with (seqZ (1 + 0) num).
    rewrite <-(fmap_add_seqZ 1 0 num), <-list_fmap_compose.
    apply list_fmap_ext. intros _ i _. simpl. f_equal. lia.
  - intros n Hn. replace n with ((n - 1) + 1) at 1 by lia.
    rewrite (dict_get_fmap (λ i, user_key (i + 1))) by (done || (apply elem_of_seqZ; lia)).
    f_equal. unfold block, py_range. rewrite bool_decide_eq_true_2 by lia.
    fold base. f_equal. lia.
  - replace num with ((num - 1) + 1) at 1 by lia.
    rewrite (dict_get_fmap (λ i, user_key (i + 1))) by (done || (apply elem_of_seqZ; lia)).
    f_equal. unfold block, py_range. rewrite bool_decide_eq_false_2 by lia.
    fold base. f_equal. lia.
  - rewrite <-list_fmap_compose.
    replace num with (Z.of_nat (S (Z.to_nat (num - 1)))) at 1 by lia.
    rewrite seqZ_S, fmap_app, concat_app. simpl. rewrite app_nil_r.
    rewrite (concat_blocks total num) by lia.
    unfold block, py_range. rewrite bool_decide_eq_false_2 by lia.
    rewrite Z.add_0_l. fold base.
    rewrite <-(seqZ_app 0) by nia. f_equal. lia.
Qed.

Lemma assign_data_partition_witness :
  0 ≤ 7 ∧ 1 ≤ 2 ∧
  ∃ assignments,
    assign_data 7 2 = Ok assignments ∧
    assignments.*1 = user_key <$> seqZ 1 2 ∧
    (∀ n, 1 ≤ n < 2 →
       dict_get (user_key n) assignments = Some (seqZ ((n - 1) * Z.div 7 2) (Z.div 7 2))) ∧
    dict_get (user_key 2) assignments =
      Some (seqZ ((2 - 1) * Z.div 7 2) (Z.div 7 2 + Z.modulo 7 2)) ∧
    concat assignments.*2 = seqZ 0 7.
Proof.
  split; [lia|]. split; [lia|].
  apply (proj1 assign_data_partition 7 2); lia.
Defined.

(** Runs traced by hand on the source. *)
Example assign_data_0_1 : assign_data 0 1 = Ok [("user_1"%string, [])].
Proof. by vm_compute. Qed.

Example assign_data_2_5 :
  assign_data 2 5 =
  Ok [("user_1", []); ("user_2", []); ("user_3", []); ("user_4", []);
      ("user_5", [0; 1])]%string.
Proof. by vm_compute. Qed.

Example assign_data_no_labelers : assign_data 4 0 = Raise ZeroDivisionError.
Proof. reflexivity. Qed.

Example py_index_from_the_end : py_index [10; 20; 30] (-1) = Ok 30.
Proof. reflexivity. Qed.

Example py_index_out_of_range : py_index [10; 20; 30] 3 = Raise IndexError.
Proof. reflexivity. Qed.

(** ** The ledger *)

Lemma new_entry_label label user now :
  new_entry label user now !! "label"%string = Some label.
Proof. unfold new_entry. by rewrite lookup_insert_eq. Qed.

Lemma label_value_insert (labels : ledger) idx label user now :
  label_value (<[py_str idx := new_entry label user now]> labels) idx = Some label.
Proof.
  unfold label_value. rewrite lookup_insert_eq. simpl. apply new_entry_label.
Qed.

Lemma label_value_absent (labels : ledger) idx :
  labels !! py_str idx = None → label_value labels idx = None.
Proof. unfold label_value. by intros ->. Qed.

Lemma label_value_present (labels : ledger) idx l :
  label_value labels idx = Some l → is_Some (labels !! py_str idx).
Proof.
  unfold label_value. destruct (labels !! py_str idx); [eauto|done].
Qed.

(** A stored label other than the unset option is the existing label. *)
Lemma existing_label_stored (labels : ledger) idx label :
  label ≠ UNSET →
  existing_label labels idx = label ↔ label_value labels idx = Some label.
Proof.
  unfold existing_label. intros Hne.
  destruct (label_value labels idx) as [l|]; simpl; split; congruence.
Qed.

Lemma write_label_other (labels : ledger) idx label user now k :
  k ≠ py_str idx → write_label labels idx label user now !! k = labels !! k.
Proof.
  intros Hk. unfold write_label. repeat case_decide; try done.
  - by rewrite lookup_delete_ne.
  - by rewrite lookup_insert_ne.
Qed.

Lemma set_label_other (labels : ledger) idx label user now k :
  k ≠ py_str idx → set_label labels idx label user now !! k = labels !! k.
Proof.
  intros Hk. unfold set_label. case_decide; [|done]. by apply write_label_other.
Qed.

(** After an action with a label other than unset, that label is stored. *)
Lemma set_label_stores (labels : ledger) idx label user now :
  label ≠ UNSET →
  label_value (set_label labels idx label user now) idx = Some label.
Proof.
  intros Hne. unfold set_label, write_label.
  destruct (decide (label ≠ existing_label labels idx)) as [Hch|Hsame].
  - rewrite decide_False by done. apply label_value_insert.
  - apply existing_label_stored; [done|]. by destruct (decide (existing_label labels idx = label)).
Qed.

(** Choosing unset, when a label other than unset is stored, deletes. *)
Lemma set_label_unset_stored (labels : ledger) idx l user now :
  label_value labels idx = Some l → l ≠ UNSET →
  set_label labels idx UNSET user now = delete (py_str idx) labels.
Proof.
  intros Hl Hne. pose proof (label_value_present _ _ _ Hl) as Hin.
  unfold set_label, write_label, existing_label. rewrite Hl. simpl.
  repeat case_decide; done || congruence.
Qed.

Lemma set_label_unset_absent (labels : ledger) idx user now :
  labels !! py_str idx = None → set_label labels idx UNSET user now = labels.
Proof.
  intros Hk. unfold set_label, existing_label.
  rewrite (label_value_absent _ _ Hk). cbn [default].
  by destruct (decide (UNSET ≠ UNSET)).
Qed.

(** C2. Setting a label other than unset stores it, and setting unset
    afterwards removes the entry of that index (the ledger becomes the
    original one without that key).  From a ledger with no entry for the
    index the entry appears and then disappears, giving back the original
    ledger; and setting unset when there is no entry changes nothing. *)
Theorem set_then_unset_removes (labels : ledger) (idx : Z)
    (label user now user' now' : string) :
  label ≠ UNSET →
  let labelled := set_label labels idx label user now in
  (∃ e : entry, labelled !! py_str idx = Some e ∧ e !! "label"%string = Some label) ∧
  set_label labelled idx UNSET user' now' !! py_str idx = None ∧
  set_label labelled idx UNSET user' now' = delete (py_str idx) labels ∧
  (labels !! py_str idx = None →
     labelled !! py_str idx = Some (new_entry label user now) ∧
     set_label labelled idx UNSET user' now' = labels ∧
     set_label labels idx UNSET user' now' = labels).
Proof.
  intros Hne labelled.
  assert (Hst : label_value labelled idx = Some label) by by apply set_label_stores.
  assert (Hdel : set_label labelled idx UNSET user' now' = delete (py_str idx) labels).
  { rewrite (set_label_unset_stored _ _ _ _ _ Hst Hne).
    unfold labelled, set_label, write_label. case_decide; [|done].
    rewrite decide_False by done. by rewrite delete_insert_eq. }
  split; [|split; [|split]].
  - unfold label_value in Hst.
    destruct (labelled !! py_str idx) as [e|]; [|done]. eauto.
  - rewrite Hdel. apply lookup_delete_eq.
  - done.
  - intros Habs. split; [|split].
    + unfold labelled, set_label, write_label, existing_label.
      rewrite (label_value_absent _ _ Habs). simpl.
      rewrite decide_True by done. rewrite decide_False by done.
      apply lookup_insert_eq.
    + rewrite Hdel. by apply delete_id.
    + by apply set_label_unset_absent.
Qed.

Lemma set_then_unset_removes_witness :
  ("X" : string) ≠ UNSET ∧
  set_label (set_label ∅ 4 "X" "user_1" "2026-01-01 10:00:00") 4 UNSET
    "user_2" "2026-01-01 11:00:00" = ∅.
Proof.
  split; [done|].
  destruct (set_then_unset_removes ∅ 4 "X" "user_1" "2026-01-01 10:00:00"
              "user_2" "2026-01-01 11:00:00") as (_ & _ & _ & Habsent); [done|].
  by apply Habsent.
Defined.

(** Against C3 as stated: the write of lines 319-323 is not reached when the
    chosen label is the stored one, so the first labeler and the first
    timestamp stay. *)
Lemma set_label_same_label_not_overwritten :
  ¬ (∀ (labels : ledger) (idx : Z) (label user now : string),
       label ≠ UNSET →
       set_label labels idx label user now !! py_str idx
       = Some (new_entry label user now)).
Proof.
  intros Hall.
  specialize (Hall {[ "0" := new_entry "X" "user_1" "2026-01-01 10:00:00" ]}%string
                   0 "X" "user_2" "2026-01-01 11:00:00")%string.
  assert (Hu : (Some "user_1" : option string) = Some "user_2"); [|done].
  change (Some "user_1"%string) with
    (Some (new_entry "X" "user_1" "2026-01-01 10:00:00") ≫= (.!! "user"%string)).
  change (Some "user_2"%string) with
    (Some (new_entry "X" "user_2" "2026-01-01 11:00:00") ≫= (.!! "user"%string)).
  rewrite <-Hall by done. reflexivity.
Qed.

(** C3, as the code has it.  For a label other than unset: when it differs
    from the label stored for the index (or nothing is stored), the action
    inserts or overwrites the entry with the label, the labeler and the
    timestamp, whoever wrote the entry before, and touches no other key; when
    it is the stored label, the ledger is left as it is.  A second action on
    the same index with a different label replaces the whole entry. *)
Theorem set_label_overwrites_on_change (labels : ledger) (idx : Z)
    (label user now : string) :
  label ≠ UNSET →
  (existing_label labels idx ≠ label →
     set_label labels idx label user now
     = <[py_str idx := new_entry label user now]> labels) ∧
  (existing_label labels idx = label →
     set_label labels idx label user now = labels) ∧
  (∀ label2 user2 now2, label2 ≠ UNSET → label2 ≠ label →
     set_label (set_label labels idx label user now) idx label2 user2 now2
     = <[py_str idx := new_entry label2 user2 now2]> labels).
Proof.
  intros Hne. split; [|split].
  - intros Hch. unfold set_label, write_label.
    rewrite decide_True by done. by rewrite decide_False by done.
  - intros Hsame. unfold set_label. by rewrite decide_False by naive_solver.
  - intros label2 user2 now2 Hne2 Hdiff.
    pose proof (set_label_stores labels idx label user now Hne) as Hst.
    unfold set_label at 1. unfold existing_label. rewrite Hst. simpl.
    rewrite decide_True by done. unfold write_label.
    rewrite decide_False by done.
    unfold set_label, write_label. case_decide; [|done].
    rewrite decide_False by done. apply insert_insert_eq.
Qed.

Lemma set_label_overwrites_on_change_witness :
  ("X" : string) ≠ UNSET ∧
  set_label (set_label ∅ 0 "X" "user_1" "2026-01-01 10:00:00") 0 "정책"
    "user_2" "2026-01-01 11:00:00"
  = <[py_str 0 := new_entry "정책" "user_2" "2026-01-01 11:00:00"]> ∅.
Proof.
  split; [done|].
  destruct (set_label_overwrites_on_change ∅ 0 "X" "user_1" "2026-01-01 10:00:00")
    as (_ & _ & Hsecond); [done|].
  by apply Hsecond.
Defined.

(** ** Reachable ledgers *)

Lemma ledger_inv_empty : ledger_inv ∅.
Proof. intros k e Hk. by rewrite lookup_empty in Hk. Qed.

Lemma set_label_inv (labels : ledger) idx label user now :
  ledger_inv labels → ledger_inv (set_label labels idx label user now).
Proof.
  intros Hinv. unfold set_label, write_label.
  repeat case_decide; try done.
  - intros k e [_ Hk]%lookup_delete_Some. by eapply Hinv.
  - intros k e [[_ <-]|[_ Hk]]%lookup_insert_Some.
    + exists label. split; [apply new_entry_label|done].
    + by eapply Hinv.
Qed.

Lemma run_actions_inv acts (labels : ledger) :
  ledger_inv labels → ledger_inv (run_actions acts labels).
Proof.
  revert labels. induction acts as [|a acts IH]; intros labels Hinv; [done|].
  simpl. apply IH. by apply set_label_inv.
Qed.

(** Under the invariant the stored label of a present entry is not unset. *)
Lemma ledger_inv_label_value (labels : ledger) idx :
  ledger_inv labels →
  is_Some (labels !! py_str idx) ↔ ∃ l, label_value labels idx = Some l ∧ l ≠ UNSET.
Proof.
  intros Hinv. unfold label_value. split.
  - intros [e He]. rewrite He. simpl. by eapply Hinv.
  - intros (l & Hl & _). destruct (labels !! py_str idx); [eauto|done].
Qed.

Lemma last_label_snoc acts a idx :
  last_label (acts ++ [a]) idx =
  if decide (act_idx a = idx) then Some (act_label a) else last_label acts idx.
Proof.
  unfold last_label. rewrite filter_app, filter_cons, filter_nil.
  case_decide.
  - by rewrite last_snoc.
  - by rewrite app_nil_r.
Qed.

Lemma run_actions_snoc acts a (labels : ledger) :
  run_actions (acts ++ [a]) labels = apply_action (run_actions acts labels) a.
Proof. unfold run_actions. by rewrite foldl_app. Qed.

Lemma run_actions_entry acts idx :
  is_Some (run_actions acts ∅ !! py_str idx) ↔
  ∃ l, last_label acts idx = Some l ∧ l ≠ UNSET.
Proof.
  induction acts as [|a acts IH] using rev_ind.
  - unfold run_actions, last_label. simpl. rewrite lookup_empty.
    split; [by intros [? ?]|by intros (? & ? & _)].
  - rewrite run_actions_snoc, last_label_snoc.
    pose proof (run_actions_inv acts ∅ ledger_inv_empty) as Hinv.
    unfold apply_action. destruct (decide (act_idx a = idx)) as [<-|Hother].
    + destruct (decide (act_label a = UNSET)) as [Hun|Hset].
      * rewrite Hun. split; [|by intros (l & [= <-] & Hl)].
        intros Hsome. exfalso.
        destruct (run_actions acts ∅ !! py_str (act_idx a)) as [e|] eqn:He.
        -- destruct (proj1 (ledger_inv_label_value _ (act_idx a) Hinv))
             as (l & Hl & Hlne); [by rewrite He|].
           rewrite (set_label_unset_stored _ _ _ _ _ Hl Hlne) in Hsome.
           rewrite lookup_delete_eq in Hsome. by destruct Hsome.
        -- rewrite set_label_unset_absent in Hsome by done.
           rewrite He in Hsome. by destruct Hsome.
      * split; [by eauto|]. intros _.
        eapply label_value_present. by apply set_label_stores.
    + rewrite set_label_other by (intros ?%py_str_inj; done). apply IH.
Qed.

(** C6. In every ledger reached from the empty one by labeling actions, an
    index has an entry exactly when the most recent action on it chose a
    label other than unset; no entry stores the unset option (every entry
    stores a label, and it is not unset); and every labeling action keeps
    that invariant. *)
Theorem reachable_ledger_invariant :
  (∀ acts idx,
     is_Some (run_actions acts ∅ !! py_str idx) ↔
     ∃ l, last_label acts idx = Some l ∧ l ≠ UNSET) ∧
  (∀ acts, ledger_inv (run_actions acts ∅)) ∧
  (∀ (labels : ledger) a, ledger_inv labels → ledger_inv (apply_action labels a)).
Proof.
  split; [apply run_actions_entry|]. split.
  - intros acts. apply run_actions_inv, ledger_inv_empty.
  - intros labels a. apply set_label_inv.
Qed.

Lemma reachable_ledger_invariant_witness :
  ledger_inv ∅ ∧
  ledger_inv (apply_action ∅ (Action 2 "X" "user_1" "2026-01-01 10:00:00")).
Proof.
  split; [apply ledger_inv_empty|].
  apply (proj2 (proj2 reachable_ledger_invariant)), ledger_inv_empty.
Defined.

(** ** Progress *)

Lemma calculate_progress_count (labels : ledger) user assigned_indices :
  calculate_progress labels user assigned_indices
  = Z.of_nat (length (filter (label_selected labels) assigned_indices)).
Proof.
  unfold calculate_progress.
  enough (∀ acc,
    foldl (λ completed idx,
             if decide (label_selected labels idx) then completed + 1 else completed)
          acc assigned_indices
    = acc + Z.of_nat (length (filter (label_selected labels) assigned_indices)))
    as Hgen by (rewrite Hgen; lia).
  induction assigned_indices as [|idx rest IH]; intros acc; simpl; [lia|].
  rewrite IH, filter_cons. case_decide; simpl; lia.
Qed.




(** ** Export *)

Lemma entry_field_insert (labels : ledger) idx label user now :
  entry_field (<[py_str idx := new_entry label user now]> labels) idx "label" = label ∧
  entry_field (<[py_str idx := new_entry label user now]> labels) idx "user" = user ∧
  entry_field (<[py_str idx := new_entry label user now]> labels) idx "timestamp" = now.
Proof.
  unfold entry_field, new_entry. rewrite lookup_insert_eq. simpl.
  rewrite lookup_insert_eq.
  rewrite lookup_insert_ne, lookup_insert_eq by done.
  rewrite !lookup_insert_ne, lookup_singleton_eq by done. done.
Qed.

(** C7. The export has one row per sample, in the order of the sample
    store: its length is the length of the store, and row [i] exists exactly
    when sample [i] does.  The row carries the sample's instruction and
    output; with no ledger entry under [str(i)] the label, labeler and
    timestamp are empty strings, and with an entry they are the entry's
    fields (an entry written by a labeling action gives exactly its label,
    labeler and timestamp). *)
Theorem save_labels_to_excel_one_row_per_sample (all_data : list sample) (labels : ledger) :
  length (save_labels_to_excel all_data labels) = length all_data ∧
  (∀ i : nat,
     save_labels_to_excel all_data labels !! i
     = (λ item,
          match labels !! py_str (Z.of_nat i) with
          | Some e =>
              ExportRow (instruction item) (output item)
                  (default "" (e !! "label")) (default "" (e !! "user"))
                  (default "" (e !! "timestamp"))
          | None => ExportRow (instruction item) (output item) "" "" ""
          end%string) <$> all_data !! i) ∧
  (∀ (i : nat) label user now,
     save_labels_to_excel all_data (<[py_str (Z.of_nat i) := new_entry label user now]> labels) !! i
     = (λ item, ExportRow (instruction item) (output item) label user now) <$> all_data !! i).
Proof.
  unfold save_labels_to_excel. split; [apply length_imap|]. split.
  - intros i. rewrite list_lookup_imap.
    destruct (all_data !! i) as [item|]; [|done]. simpl. f_equal.
    unfold entry_field. by destruct (labels !! py_str (Z.of_nat i)).
  - intros i label user now. rewrite list_lookup_imap.
    destruct (all_data !! i) as [item|]; [|done]. simpl. f_equal.
    by destruct (entry_field_insert labels (Z.of_nat i) label user now)
      as (-> & -> & ->).
Qed.

Example save_labels_to_excel_two_samples :
  save_labels_to_excel [Sample "q0" "a0"; Sample "q1" "a1"]
    {[ "1"%string := new_entry "X" "user_1" "2026-01-01 10:00:00" ]}
  = [ExportRow "q0" "a0" "" "" "";
     ExportRow "q1" "a1" "X" "user_1" "2026-01-01 10:00:00"]%string.
Proof. by vm_compute. Qed.

(** ** The host's progress section *)

(** A labeler without samples stops the loop of lines 191-194. *)
Lemma host_progress_lines_empty_assignment (labels : ledger) items user :
  (user, []) ∈ items → host_progress_lines labels items = Raise ZeroDivisionError.
Proof.
  induction items as [|[u a] items IH]; [by intros ?%elem_of_nil|].
  intros Hin. simpl. unfold py_truediv, py_len.
  destruct (decide (Z.of_nat (length a) = 0)) as [|Hlen]; [done|].
  apply elem_of_cons in Hin as [[= <- <-]|Hin]; [by destruct Hlen|].
  simpl. by rewrite IH.
Qed.

(** X1. Whenever the ledger is not empty, so that the progress section is
    shown, and some labeler holds no index, the section raises
    [ZeroDivisionError] and leaves the state as it is. *)
Lemma host_progress_raises_on_empty_assignment (st : state) (user : string) :
  labels st ≠ ∅ → (user, []) ∈ user_assignments st →
  host_progress st = (st, Raise ZeroDivisionError).
Proof.
  intros Hlabels Hin. unfold host_progress, mbind, M_bind, get_state, lift.
  rewrite decide_False by done.
  by rewrite (host_progress_lines_empty_assignment _ _ _ Hin).
Qed.

Lemma host_progress_raises_on_empty_assignment_witness :
  labels two_labelers_state ≠ ∅ ∧
  ("user_1"%string, []) ∈ user_assignments two_labelers_state ∧
  host_progress two_labelers_state = (two_labelers_state, Raise ZeroDivisionError).
Proof.
  assert (Hlabels : labels two_labelers_state ≠ ∅).
  { intros Hempty. apply (f_equal (λ m : ledger, m !! "0"%string)) in Hempty.
    vm_compute in Hempty. discriminate Hempty. }
  assert (Hin : ("user_1"%string, []) ∈ user_assignments two_labelers_state)
    by (vm_compute; left).
  split; [done|]. split; [done|].
  by apply (host_progress_raises_on_empty_assignment _ "user_1").
Defined.

(** C4 on the code.  After one sample is distributed over two labelers,
    [user_1] holds no index.  [calculate_progress] gives 0 for it and
    [show_info_popup] guards the division and shows a ratio of 0, but the
    progress section of [host_interface] divides by the length of the empty
    sequence and raises [ZeroDivisionError]. *)
Theorem host_progress_divides_by_zero :
  user_assignments two_labelers_state = [("user_1", []); ("user_2", [0])]%string ∧
  calculate_progress (labels two_labelers_state) "user_1" [] = 0 ∧
  show_info_popup "user_1" [] two_labelers_state
  = (two_labelers_state, Ok ("user_1"%string, 0, 0, Qmake 0 1)) ∧
  host_progress two_labelers_state = (two_labelers_state, Raise ZeroDivisionError).
Proof. vm_compute. done. Qed.

(** ** Upload *)

Section upload_facts.
Variable json_loads : string → result (list sample).

(** The first file that does not parse ends the reading with its
    exception. *)
Lemma read_uploads_raises uploaded_files new_data :
  (∃ file e, file ∈ uploaded_files ∧ json_loads file = Raise e) →
  ∃ file e, file ∈ uploaded_files ∧ json_loads file = Raise e ∧
            read_uploads json_loads uploaded_files new_data = Raise e.
Proof.
  revert new_data.
  induction uploaded_files as [|file rest IH]; intros new_data (bad & e & Hin & Hbad).
  - by apply elem_of_nil in Hin.
  - simpl. destruct (json_loads file) as [content|e'] eqn:Hfile.
    + apply elem_of_cons in Hin as [->|Hin]; [congruence|].
      destruct (IH (new_data ++ content)) as (f & e1 & Hf & He1 & Hrun); [by eauto|].
      exists f, e1. split; [by right|]. by split.
    + exists file, e'. split; [by left|]. by split.
Qed.

(** When every file parses, their samples are appended in order. *)
Lemma read_uploads_ok uploaded_files parsed new_data :
  Forall2 (λ file content, json_loads file = Ok content) uploaded_files parsed →
  read_uploads json_loads uploaded_files new_data = Ok (new_data ++ concat parsed).
Proof.
  intros Hall. revert new_data.
  induction Hall as [|file content rest parsed Hfile _ IH]; intros new_data; simpl.
  - by rewrite app_nil_r.
  - rewrite Hfile. simpl. by rewrite IH, app_assoc.
Qed.

(** X2. When every file of the batch parses, the upload writes their samples,
    in order, to [data_<timestamp>.json], appends them to the sample store,
    reports how many were added and changes nothing else. *)
Lemma upload_ok uploaded_files parsed timestamp st :
  Forall2 (λ file content, json_loads file = Ok content) uploaded_files parsed →
  upload json_loads uploaded_files timestamp st
  = (State (all_data st ++ concat parsed) (user_assignments st) (labels st)
           (policy_image st)
           (<[data_file timestamp := SamplesJson (concat parsed)]> (files st)),
     Ok (py_len (concat parsed))).
Proof.
  intros Hall. unfold upload, mbind, M_bind, lift.
  by rewrite (read_uploads_ok _ _ _ Hall).
Qed.

End upload_facts.

Lemma upload_ok_witness :
  Forall2 (λ file content, example_json_loads file = Ok content)
          ["[{sample}]"; "[]"]%string [[Sample "q" "a"]; []] ∧
  upload example_json_loads ["[{sample}]"; "[]"]%string "20260101_100000" example_state
  = (State (all_data example_state ++ [Sample "q" "a"])
           (user_assignments example_state) (labels example_state)
           (policy_image example_state)
           (<[data_file "20260101_100000" := SamplesJson [Sample "q" "a"]]>
              (files example_state)),
     Ok 1).
Proof.
  assert (Hall : Forall2 (λ file content, example_json_loads file = Ok content)
                         ["[{sample}]"; "[]"]%string [[Sample "q" "a"]; []])
    by (repeat constructor).
  split; [done|].
  by apply (upload_ok example_json_loads _ _ "20260101_100000" example_state Hall).
Defined.


(** ** Reset *)

Lemma elem_of_glob_star (fs : gmap string content) name :
  name ∈ glob_star fs ↔ hidden name = false ∧ is_Some (fs !! name).
Proof.
  unfold glob_star. rewrite list_elem_of_filter, list_elem_of_fmap.
  split.
  - intros [Hvis ([k c] & -> & Hin)]. split; [done|].
    apply elem_of_map_to_list in Hin. simpl. eauto.
  - intros [Hvis [c Hc]]. split; [done|].
    exists (name, c). split; [done|]. by apply elem_of_map_to_list.
Qed.

(** The removal loop of lines 71-73: a listed file is gone unless it is
    kept, and nothing else changes. *)
Lemma lookup_remove_loop (keep : string → bool) (listed : list string)
    (fs : gmap string content) name :
  foldl (λ fs file, if negb (keep file) then delete file fs else fs) fs listed !! name
  = if decide (name ∈ listed ∧ keep name = false) then None else fs !! name.
Proof.
  revert fs. induction listed as [|file listed IH]; intros fs; cbn [foldl].
  - destruct (decide (name ∈ [] ∧ keep name = false)) as [[Hin _]|_]; [|done].
    by apply elem_of_nil in Hin.
  - rewrite IH.
    destruct (decide (name ∈ listed ∧ keep name = false)) as [[Hin Hk]|Hno];
      destruct (decide (name ∈ file :: listed ∧ keep name = false))
        as [[Hin' Hk']|Hno']; try done.
    + destruct Hno'. split; [by right|done].
    + apply elem_of_cons in Hin' as [->|Hin']; [|by destruct Hno].
      rewrite Hk'. simpl. apply lookup_delete_eq.
    + destruct (keep file) eqn:Hk; simpl; [done|].
      apply lookup_delete_ne. intros ->. destruct Hno'. split; [by left|done].
Qed.

(** The files left by the reset: the policy image as it was, the names the
    listing skips, and nothing else. *)
Lemma clear_all_data_files st :
  policy_file_is_image (files st) →
  ∃ st', clear_all_data st = (st', Ok true) ∧
         all_data st' = [] ∧ user_assignments st' = [] ∧ labels st' = ∅ ∧
         policy_image st' = policy_image st ∧
         ∀ name, files st' !! name
                 = if decide (name = POLICY_IMAGE ∨ hidden name = true)
                   then files st !! name else None.
Proof.
  intros Himg. unfold clear_all_data, path_exists, image_open.
  unfold mbind, M_bind, get_state, lift, modify, save_data, mret, M_ret.
  destruct (files st !! POLICY_IMAGE) as [c|] eqn:Hpol.
  - destruct (Himg c Hpol) as [img ->].
    rewrite bool_decide_eq_true_2 by eauto. simpl.
    eexists. split; [reflexivity|]. simpl. repeat split.
    intros name. destruct (decide (name = POLICY_IMAGE)) as [->|Hne].
    + rewrite lookup_insert_eq. by rewrite decide_True by by left.
    + rewrite lookup_insert_ne by done.
      rewrite (lookup_remove_loop (λ file, bool_decide (file = POLICY_IMAGE))).
      rewrite bool_decide_eq_false_2 by done.
      destruct (decide (name ∈ glob_star (files st) ∧ false = false)) as [[Hin _]|Hout].
      * apply elem_of_glob_star in Hin as [Hvis _].
        rewrite decide_False; [done|]. intros [?|?]; congruence.
      * destruct (hidden name) eqn:Hh.
        -- by rewrite decide_True by by right.
        -- rewrite decide_False by (intros [?|?]; congruence).
           destruct (files st !! name) eqn:Hname; [|done].
           destruct Hout. split; [|done]. apply elem_of_glob_star. eauto.
  - rewrite bool_decide_eq_false_2 by (by intros [? ?]). simpl.
    eexists. split; [reflexivity|]. simpl. repeat split.
    intros name.
    rewrite (lookup_remove_loop (λ _, false)).
    destruct (decide (name ∈ glob_star (files st) ∧ false = false)) as [[Hin _]|Hout].
    + apply elem_of_glob_star in Hin as [Hvis [c Hc]].
      rewrite decide_False; [done|]. intros [->|?]; congruence.
    + destruct (decide (name = POLICY_IMAGE ∨ hidden name = true)) as [_|Hno]; [done|].
      destruct (files st !! name) eqn:Hname; [|done].
      destruct Hout. split; [|done]. apply elem_of_glob_star. split; [|eauto].
      destruct (hidden name); [|done]. destruct Hno. by right.
Qed.



(** ** The labeler's loop *)

Lemma M_bind_run {A B} (f : A → M B) (m : M A) (st : state) :
  (m ≫= f) st
  = match m st with
    | (st', Ok a) => f a st'
    | (st', Raise e) => (st', Raise e)
    end.
Proof. reflexivity. Qed.


Section labeler_facts.
Variable selectbox : Z → nat → string.
Variable clock : Z → string.

(** What one pass of the loop body does to the ledger, the sample store
    and the screen. *)
Lemma label_sample_run user idx st :
  let run := label_sample selectbox clock user idx st in
  all_data run.1 = all_data st ∧
  (labels run.1 = labels st ∨
   idx < py_len (all_data st) ∧
   labels run.1 = set_label (labels st) idx
                    (selectbox idx (current_index (existing_label (labels st) idx)))
                    user (clock idx)) ∧
  (∀ drawn s, run.2 = Ok drawn → s ∈ drawn →
              shown_idx s = idx ∧ idx < py_len (all_data st)).
Proof.
  unfold label_sample, set_label.
  unfold mbind, M_bind, get_state, lift, modify, save_data, mret, M_ret.
  case_bool_decide as Hlt; simpl.
  - destruct (py_index (all_data st) idx) as [item|e]; simpl.
    + case_decide; simpl.
      * split; [done|]. split; [by right|].
        intros drawn s [= <-] ->%list_elem_of_singleton. done.
      * split; [done|]. split; [by left|].
        intros drawn s [= <-] ->%list_elem_of_singleton. done.
    + split; [done|]. split; [by left|]. by intros drawn s [=].
  - split; [done|]. split; [by left|].
    by intros drawn s [= <-] ?%elem_of_nil.
Qed.

Lemma label_sample_skip user idx st :
  py_len (all_data st) ≤ idx →
  label_sample selectbox clock user idx st = (st, Ok []).
Proof.
  intros Hge. unfold label_sample, mbind, M_bind, get_state, mret, M_ret.
  by rewrite bool_decide_eq_false_2 by lia.
Qed.

Lemma label_loop_run user assigned_indices st idx :
  py_len (all_data st) ≤ idx →
  let run := label_loop selectbox clock user assigned_indices st in
  all_data run.1 = all_data st ∧
  labels run.1 !! py_str idx = labels st !! py_str idx ∧
  (∀ drawn s, run.2 = Ok drawn → s ∈ drawn →
              shown_idx s ∈ assigned_indices ∧
              shown_idx s < py_len (all_data st)).
Proof.
  intros Hge. revert st Hge.
  induction assigned_indices as [|i rest IH]; intros st Hge; cbn [label_loop].
  - split; [done|]. split; [done|].
    unfold mret, M_ret. simpl. by intros drawn s [= <-] ?%elem_of_nil.
  - rewrite M_bind_run.
    pose proof (label_sample_run user i st) as (Hdata & Hlabels & Hdrawn).
    destruct (label_sample selectbox clock user i st) as [st1 [here|e]];
      cbn [fst snd] in *.
    + assert (Hkey : labels st1 !! py_str idx = labels st !! py_str idx).
      { destruct Hlabels as [->|[Hlt ->]]; [done|].
        apply set_label_other. intros ?%py_str_inj. lia. }
      specialize (IH st1). rewrite Hdata in IH.
      destruct (IH Hge) as (Hdata2 & Hkey2 & Hdrawn2).
      rewrite M_bind_run.
      destruct (label_loop selectbox clock user rest st1) as [st2 [later|e]];
        cbn [fst snd] in *.
      * unfold mret, M_ret. cbn [fst snd].
        split; [done|]. split; [congruence|].
        intros drawn s [= <-] [Hs|Hs]%elem_of_app.
        -- destruct (Hdrawn here s eq_refl Hs) as [-> Hlt]. split; [by left|done].
        -- destruct (Hdrawn2 later s eq_refl Hs) as [Hin Hlt]. split; [by right|done].
      * split; [done|]. split; [congruence|]. by intros drawn s [=].
    + split; [done|]. split; [|by intros drawn s [=]].
      destruct Hlabels as [->|[Hlt ->]]; [done|].
      apply set_label_other. intros ?%py_str_inj. lia.
Qed.

(** C10. An assigned index at or above the length of the sample store is
    skipped: the loop body returns at once, drawing nothing, reading no
    sample and leaving the state as it is.  Over a whole pass of the
    labeler interface the ledger entry under that index is neither created
    nor changed, the sample store is untouched, and every sample that is
    drawn has an index strictly below the length of the store. *)
Theorem labeler_skips_index_beyond_store (user : string) (st : state) (idx : Z) :
  py_len (all_data st) ≤ idx →
  label_sample selectbox clock user idx st = (st, Ok []) ∧
  (∀ assigned_indices,
     let run := label_loop selectbox clock user assigned_indices st in
     labels run.1 !! py_str idx = labels st !! py_str idx ∧
     all_data run.1 = all_data st ∧
     ∀ drawn s, run.2 = Ok drawn → s ∈ drawn →
                shown_idx s ≠ idx ∧ shown_idx s < py_len (all_data st)) ∧
  (let run := labeler_interface selectbox clock user st in
   labels run.1 !! py_str idx = labels st !! py_str idx ∧
   all_data run.1 = all_data st ∧
   ∀ drawn s, run.2 = Ok drawn → s ∈ drawn →
              shown_idx s ≠ idx ∧ shown_idx s < py_len (all_data st)).
Proof.
  intros Hge.
  assert (Hloop : ∀ assigned_indices,
     let run := label_loop selectbox clock user assigned_indices st in
     labels run.1 !! py_str idx = labels st !! py_str idx ∧
     all_data run.1 = all_data st ∧
     ∀ drawn s, run.2 = Ok drawn → s ∈ drawn →
                shown_idx s ≠ idx ∧ shown_idx s < py_len (all_data st)).
  { intros assigned_indices.
    destruct (label_loop_run user assigned_indices st idx Hge)
      as (Hdata & Hkey & Hdrawn).
    split; [done|]. split; [done|]. intros drawn s Hrun Hs.
    destruct (Hdrawn drawn s Hrun Hs) as [_ Hlt]. split; [lia|done]. }
  split; [by apply label_sample_skip|]. split; [done|].
  unfold labeler_interface, show_info_popup.
  unfold mbind, M_bind, get_state, lift, mret, M_ret.
  repeat case_decide; simpl; try (split_and!; [done|done|by intros drawn s [= <-] ?%elem_of_nil]).
  destruct (dict_get user (user_assignments st)) as [assigned_indices|]; simpl.
  - case_bool_decide; simpl.
    + unfold py_truediv. case_decide; simpl; [lia|]. apply Hloop.
    + apply Hloop.
  - split_and!; [done|done|by intros drawn s [=]].
Qed.
End labeler_facts.

Lemma labeler_skips_index_beyond_store_witness :
  py_len (all_data two_labelers_state) ≤ 5 ∧
  label_sample (λ _ _, "X"%string) (λ _, "2026-01-01 12:00:00"%string) "user_2" 5
    two_labelers_state
  = (two_labelers_state, Ok []).
Proof.
  assert (Hge : py_len (all_data two_labelers_state) ≤ 5) by (by vm_compute).
  split; [done|].
  by apply (labeler_skips_index_beyond_store
              (λ _ _, "X"%string) (λ _, "2026-01-01 12:00:00"%string)
              "user_2" two_labelers_state 5).
Defined.

(** * Further properties *)

(** ** The algebra of labeling actions *)

(** Lines 313-323 delete on unset and insert otherwise. *)
Lemma write_label_eq (labels : ledger) idx label user now :
  write_label labels idx label user now
  = if decide (label = UNSET) then delete (py_str idx) labels
    else <[py_str idx := new_entry label user now]> labels.
Proof.
  unfold write_label. case_decide; [|done]. case_decide as Hin; [done|].
  symmetry. apply delete_id. by destruct (labels !! py_str idx); [destruct Hin; eauto|].
Qed.

Lemma label_value_other (labels labels' : ledger) idx :
  labels' !! py_str idx = labels !! py_str idx →
  label_value labels' idx = label_value labels idx.
Proof. unfold label_value. by intros ->. Qed.

(** After an action the stored label, read as line 299 reads it, is the
    label the action chose. *)
Lemma existing_label_set_label (labels : ledger) idx label user now :
  existing_label (set_label labels idx label user now) idx = label.
Proof.
  destruct (decide (label = UNSET)) as [->|Hne].
  - unfold set_label. case_decide as Hch; [|by destruct (decide (UNSET = existing_label labels idx)); [|destruct Hch]].
    rewrite write_label_eq, decide_True by done.
    unfold existing_label, label_value. by rewrite lookup_delete_eq.
  - unfold existing_label. by rewrite set_label_stores.
Qed.

Lemma existing_label_set_label_other (labels : ledger) idx idx' label user now :
  idx' ≠ idx →
  existing_label (set_label labels idx label user now) idx' = existing_label labels idx'.
Proof.
  intros Hne. unfold existing_label. f_equal. apply label_value_other.
  apply set_label_other. intros ?%py_str_inj. done.
Qed.

Lemma write_label_commute (labels : ledger) i j label1 user1 now1 label2 user2 now2 :
  i ≠ j →
  write_label (write_label labels i label1 user1 now1) j label2 user2 now2
  = write_label (write_label labels j label2 user2 now2) i label1 user1 now1.
Proof.
  intros Hij. assert (py_str i ≠ py_str j) by (intros ?%py_str_inj; done).
  rewrite !write_label_eq. repeat case_decide.
  - apply delete_delete.
  - by rewrite delete_insert_ne.
  - by rewrite delete_insert_ne.
  - by apply insert_insert_ne.
Qed.

(** X3. Repeating a choice changes nothing: a second action on the same
    index with the same label, by any labeler at any time, leaves the ledger
    as the first action left it, so the first labeler and timestamp stay.
    This holds for unset as well. *)
Theorem set_label_repeat_no_change (labels : ledger) (idx : Z)
    (label user now user' now' : string) :
  set_label (set_label labels idx label user now) idx label user' now'
  = set_label labels idx label user now.
Proof.
  unfold set_label at 1. rewrite existing_label_set_label.
  by destruct (decide (label ≠ label)).
Qed.

(** X4. Actions on two different indices can be done in either order: the
    resulting ledger is the same. *)
Theorem set_label_commute (labels : ledger) (i j : Z)
    (label1 user1 now1 label2 user2 now2 : string) :
  i ≠ j →
  set_label (set_label labels i label1 user1 now1) j label2 user2 now2
  = set_label (set_label labels j label2 user2 now2) i label1 user1 now1.
Proof.
  intros Hij.
  unfold set_label at 1. rewrite existing_label_set_label_other by done.
  unfold set_label at 3. rewrite existing_label_set_label_other by done.
  unfold set_label.
  destruct (decide (label1 ≠ existing_label labels i));
    destruct (decide (label2 ≠ existing_label labels j)); try done.
  by apply write_label_commute.
Qed.

Lemma set_label_commute_witness :
  (0 : Z) ≠ 1 ∧
  set_label (set_label ∅ 0 "X" "user_1" "2026-01-01 10:00:00") 1 "정책"
    "user_2" "2026-01-01 11:00:00"
  = set_label (set_label ∅ 1 "정책" "user_2" "2026-01-01 11:00:00") 0 "X"
      "user_1" "2026-01-01 10:00:00".
Proof.
  split; [done|]. by apply (set_label_commute ∅ 0 1).
Defined.

(** ** Progress under labeling *)

Lemma length_filter_mono {A} (P Q : A → Prop) `{!∀ x, Decision (P x)}
    `{!∀ x, Decision (Q x)} (l : list A) :
  (∀ x, x ∈ l → P x → Q x) → (length (filter P l) ≤ length (filter Q l))%nat.
Proof.
  induction l as [|x l IH]; intros Himp; [done|].
  rewrite !filter_cons.
  assert (length (filter P l) ≤ length (filter Q l))%nat as Hrest
    by (apply IH; intros y Hy; apply Himp; by right).
  destruct (decide (P x)) as [HP|_]; destruct (decide (Q x)) as [_|HQ]; simpl; try lia.
  destruct HQ. apply Himp; [by left|done].
Qed.

Lemma label_selected_other (labels labels' : ledger) idx :
  labels' !! py_str idx = labels !! py_str idx →
  label_selected labels' idx ↔ label_selected labels idx.
Proof. intros Heq. unfold label_selected. by rewrite (label_value_other _ _ _ Heq). Qed.

Lemma label_selected_set_label_other (labels : ledger) idx idx' label user now :
  idx' ≠ idx →
  label_selected (set_label labels idx label user now) idx' ↔ label_selected labels idx'.
Proof.
  intros Hne. apply label_selected_other, set_label_other.
  intros ?%py_str_inj. done.
Qed.

(** The index of an action is selected afterwards exactly when the action
    chose a label other than unset. *)
Lemma label_selected_set_label (labels : ledger) idx label user now :
  label_selected (set_label labels idx label user now) idx ↔ label ≠ UNSET.
Proof.
  split.
  - intros (l & Hl & Hne) ->.
    pose proof (existing_label_set_label labels idx UNSET user now) as Hex.
    unfold existing_label in Hex. rewrite Hl in Hex. simpl in Hex. done.
  - intros Hne. exists label. split; [by apply set_label_stores|done].
Qed.

(** X5. A labeling action moves a labeler's completed count in one direction
    only: choosing a label other than unset never lowers it, choosing unset
    never raises it, and an action on an index outside the labeler's
    sequence leaves it as it was. *)
Theorem progress_follows_labeling (labels : ledger) (idx : Z)
    (label user now labeler : string) (assigned_indices : list Z) :
  (label ≠ UNSET →
     calculate_progress labels labeler assigned_indices
     ≤ calculate_progress (set_label labels idx label user now) labeler assigned_indices) ∧
  (label = UNSET →
     calculate_progress (set_label labels idx label user now) labeler assigned_indices
     ≤ calculate_progress labels labeler assigned_indices) ∧
  (idx ∉ assigned_indices →
     calculate_progress (set_label labels idx label user now) labeler assigned_indices
     = calculate_progress labels labeler assigned_indices).
Proof.
  rewrite !calculate_progress_count. split; [|split].
  - intros Hne. apply inj_le, length_filter_mono. intros idx' _ Hsel.
    destruct (decide (idx' = idx)) as [->|Hother].
    + by apply label_selected_set_label.
    + by apply label_selected_set_label_other.
  - intros Hun. apply inj_le, length_filter_mono. intros idx' _ Hsel.
    destruct (decide (idx' = idx)) as [->|Hother].
    + by apply label_selected_set_label in Hsel.
    + by apply label_selected_set_label_other in Hsel.
  - intros Hout.
    assert (Hother : ∀ idx', idx' ∈ assigned_indices → idx' ≠ idx)
      by (by intros idx' Hin ->).
    f_equal. apply Nat.le_antisymm; apply length_filter_mono; intros idx' Hin Hsel.
    + by apply label_selected_set_label_other in Hsel; [|apply Hother].
    + by apply label_selected_set_label_other; [apply Hother|].
Qed.

Lemma progress_follows_labeling_witness :
  ("X" : string) ≠ UNSET ∧
  calculate_progress ∅ "user_1" [0; 1]
  ≤ calculate_progress (set_label ∅ 1 "X" "user_1" "2026-01-01 10:00:00")
      "user_1" [0; 1].
Proof.
  split; [done|].
  by apply (progress_follows_labeling ∅ 1 "X" "user_1" "2026-01-01 10:00:00"
              "user_1" [0; 1]).
Defined.


(** ** Progress over a partition *)

Lemma total_completed_concat (labels : ledger) (assignments : list (string * list Z)) :
  total_completed labels assignments
  = Z.of_nat (length (filter (label_selected labels) (concat assignments.*2))).
Proof.
  induction assignments as [|[user assigned] rest IH]; [done|].
  cbn [total_completed foldr fmap list_fmap snd concat].
  fold (total_completed labels rest). rewrite IH, calculate_progress_count.
  rewrite filter_app, length_app. lia.
Qed.

Lemma concat_all_blocks total_samples num_users :
  0 ≤ total_samples → 1 ≤ num_users →
  concat (block total_samples num_users <$> seqZ 0 num_users) = seqZ 0 total_samples.
Proof.
  intros Htot Hnum.
  assert (0 ≤ Z.div total_samples num_users) by (apply Z.div_pos; lia).
  assert (total_samples = num_users * Z.div total_samples num_users
                          + Z.modulo total_samples num_users)
    by (apply Z.div_mod; lia).
  assert (0 ≤ Z.modulo total_samples num_users < num_users)
    by (apply Z.mod_pos_bound; lia).
  replace num_users with (Z.of_nat (S (Z.to_nat (num_users - 1)))) at 2 by lia.
  rewrite seqZ_S, fmap_app, concat_app. simpl. rewrite app_nil_r.
  rewrite concat_blocks by lia.
  unfold block, py_range. rewrite bool_decide_eq_false_2 by lia.
  rewrite Z.add_0_l.
  rewrite <-(seqZ_app 0) by nia. f_equal. lia.
Qed.

Lemma assign_data_values total_samples num_users :
  0 ≤ total_samples → 1 ≤ num_users →
  ∃ assignments,
    assign_data total_samples num_users = Ok assignments ∧
    assignments
    = ((λ i, (user_key (i + 1), block total_samples num_users i)) <$> seqZ 0 num_users) ∧
    concat assignments.*2 = seqZ 0 total_samples.
Proof.
  intros Htot Hnum. eexists. split; [apply assign_data_blocks; lia|].
  split; [done|]. rewrite <-list_fmap_compose.
  by apply concat_all_blocks.
Qed.

(** X7. Over a partition made by [assign_data] the completed counts of the
    labelers add up to the number of sample indices [0 .. total_samples - 1]
    that hold a label other than unset: nothing is counted twice and no
    labelled sample of the store is missed. *)
Theorem partition_progress_adds_up (labels : ledger) (total_samples num_labelers : Z) :
  0 ≤ total_samples → 1 ≤ num_labelers →
  ∃ assignments,
    assign_data total_samples num_labelers = Ok assignments ∧
    total_completed labels assignments
    = Z.of_nat (length (filter (label_selected labels) (seqZ 0 total_samples))).
Proof.
  intros Htot Hnum.
  destruct (assign_data_values total_samples num_labelers Htot Hnum)
    as (assignments & Hrun & _ & Hconcat).
  exists assignments. split; [done|].
  by rewrite total_completed_concat, Hconcat.
Qed.

Lemma partition_progress_adds_up_witness :
  0 ≤ 5 ∧ 1 ≤ 2 ∧
  ∃ assignments,
    assign_data 5 2 = Ok assignments ∧
    total_completed {[ "3"%string := new_entry "X" "user_2" "2026-01-01 10:00:00" ]}
      assignments
    = Z.of_nat (length (filter
        (label_selected {[ "3"%string := new_entry "X" "user_2" "2026-01-01 10:00:00" ]})
        (seqZ 0 5))).
Proof.
  split; [lia|]. split; [lia|].
  apply (partition_progress_adds_up _ 5 2); lia.
Defined.

(** ** Edge cases of assign_data *)

(** X8. With more labelers than samples the per-labeler share is 0: every
    labeler before the last is given no index at all and the last labeler is
    given every sample. *)
Theorem assign_data_more_labelers_than_samples (total_samples num_labelers : Z) :
  0 ≤ total_samples < num_labelers →
  ∃ assignments,
    assign_data total_samples num_labelers = Ok assignments ∧
    (∀ n, 1 ≤ n < num_labelers → dict_get (user_key n) assignments = Some []) ∧
    dict_get (user_key num_labelers) assignments = Some (seqZ 0 total_samples).
Proof.
  intros Hfew.
  assert (Hbase : Z.div total_samples num_labelers = 0) by (apply Z.div_small; lia).
  assert (Hkey : Inj (=) (=) (λ i, user_key (i + 1))).
  { intros a b Hab. apply user_key_inj in Hab. lia. }
  eexists. split; [apply assign_data_blocks; lia|]. split.
  - intros n Hn. replace n with ((n - 1) + 1) at 1 by lia.
    rewrite (dict_get_fmap (λ i, user_key (i + 1))) by (done || (apply elem_of_seqZ; lia)).
    f_equal. unfold block, py_range. rewrite bool_decide_eq_true_2 by lia.
    rewrite Hbase. apply seqZ_nil. lia.
  - replace num_labelers with ((num_labelers - 1) + 1) at 1 by lia.
    rewrite (dict_get_fmap (λ i, user_key (i + 1))) by (done || (apply elem_of_seqZ; lia)).
    f_equal. unfold block, py_range. rewrite bool_decide_eq_false_2 by lia.
    rewrite Hbase. f_equal; lia.
Qed.

Lemma assign_data_more_labelers_than_samples_witness :
  0 ≤ 2 < 5 ∧
  ∃ assignments,
    assign_data 2 5 = Ok assignments ∧
    (∀ n, 1 ≤ n < 5 → dict_get (user_key n) assignments = Some []) ∧
    dict_get (user_key 5) assignments = Some (seqZ 0 2).
Proof.
  split; [lia|]. apply (assign_data_more_labelers_than_samples 2 5). lia.
Defined.

(** X9. [assign_data] raises [ZeroDivisionError] exactly when the number of
    labelers is 0.  Otherwise it returns a map with one entry per labeler
    (none for a negative number), under pairwise distinct keys. *)
Theorem assign_data_raises_only_without_labelers (total_samples num_users : Z) :
  (num_users = 0 → assign_data total_samples num_users = Raise ZeroDivisionError) ∧
  (num_users ≠ 0 →
     ∃ assignments,
       assign_data total_samples num_users = Ok assignments ∧
       length assignments = Z.to_nat num_users ∧
       NoDup assignments.*1).
Proof.
  split.
  - intros ->. unfold assign_data, py_floordiv. by rewrite decide_True.
  - intros Hnum. eexists. split; [by apply assign_data_blocks|]. split.
    + by rewrite length_fmap, length_seqZ.
    + rewrite <-list_fmap_compose. apply NoDup_fmap_2; [|apply NoDup_seqZ].
      intros a b Hab. simpl in Hab. apply user_key_inj in Hab. lia.
Qed.

Lemma assign_data_raises_only_without_labelers_witness :
  (3 : Z) ≠ 0 ∧
  ∃ assignments,
    assign_data 7 3 = Ok assignments ∧
    length assignments = Z.to_nat 3 ∧ NoDup assignments.*1.
Proof.
  split; [done|].
  by apply (proj2 (assign_data_raises_only_without_labelers 7 3)).
Defined.

(** ** Distribution *)

Lemma elem_of_concat_2 {A} (x : A) (l : list A) (ls : list (list A)) :
  x ∈ l → l ∈ ls → x ∈ concat ls.
Proof.
  intros Hx. induction ls as [|l' ls IH]; [by intros ?%elem_of_nil|].
  intros [->|Hl]%elem_of_cons; simpl; apply elem_of_app; [by left|right; by apply IH].
Qed.

(** Every index handed out by [assign_data] is an index of the range. *)
Lemma assign_data_in_range total_samples num_users assignments user assigned idx :
  0 ≤ total_samples → 1 ≤ num_users →
  assign_data total_samples num_users = Ok assignments →
  (user, assigned) ∈ assignments → idx ∈ assigned →
  0 ≤ idx < total_samples.
Proof.
  intros Htot Hnum Hrun Hin Hidx.
  destruct (assign_data_values total_samples num_users Htot Hnum)
    as (d & Hrun' & _ & Hconcat).
  rewrite Hrun in Hrun'. injection Hrun' as <-.
  assert (idx ∈ concat assignments.*2) as Hc.
  { apply (elem_of_concat_2 _ assigned); [done|].
    apply list_elem_of_fmap. by exists (user, assigned). }
  rewrite Hconcat in Hc. apply elem_of_seqZ in Hc. lia.
Qed.

Lemma dict_get_elem_of {V} (k : string) (v : V) (d : list (string * V)) :
  dict_get k d = Some v → (k, v) ∈ d.
Proof.
  induction d as [|[k' v'] d IH]; simpl; [done|].
  case_decide as Hk; [intros [= ->]; subst; by left|].
  intros Hget. right. by apply IH.
Qed.

(** X10. Pressing the distribution button with at least one labeler
    replaces the assignment map by the partition of the current sample
    store, writes that same map to [assignments.json], and touches nothing
    else: the ledger keeps every entry, also those of indices that now
    belong to another labeler, and the samples, the policy image and all
    other files are as before.  The new map hands out every sample index
    exactly once. *)
Theorem distribute_replaces_assignments (num_users : Z) (st : state) :
  1 ≤ num_users →
  ∃ assignments,
    assign_data (py_len (all_data st)) num_users = Ok assignments ∧
    distribute num_users st
    = (State (all_data st) assignments (labels st) (policy_image st)
             (<[ASSIGNMENTS_FILE := AssignmentsJson assignments]> (files st)),
       Ok tt) ∧
    concat assignments.*2 = seqZ 0 (py_len (all_data st)).
Proof.
  intros Hnum.
  destruct (assign_data_values (py_len (all_data st)) num_users)
    as (assignments & Hrun & _ & Hconcat); [unfold py_len; lia|done|].
  exists assignments. split; [done|]. split; [|done].
  unfold distribute, mbind, M_bind, get_state, lift, modify, save_data.
  by rewrite Hrun.
Qed.

Lemma distribute_replaces_assignments_witness :
  1 ≤ 2 ∧
  ∃ assignments,
    assign_data (py_len (all_data example_state)) 2 = Ok assignments ∧
    distribute 2 example_state
    = (State (all_data example_state) assignments (labels example_state)
             (policy_image example_state)
             (<[ASSIGNMENTS_FILE := AssignmentsJson assignments]> (files example_state)),
       Ok tt) ∧
    concat assignments.*2 = seqZ 0 (py_len (all_data example_state)).
Proof.
  split; [lia|]. apply (distribute_replaces_assignments 2 example_state). lia.
Defined.

(** ** What a pass of the labeler interface writes *)

Lemma ledger_written_trans st st1 st2 :
  ledger_written st st1 → ledger_written st1 st2 → ledger_written st st2.
Proof.
  intros [->|H1] [->|H2]; [by left|by right|by right|].
  right. rewrite H2. rewrite H1 at 1 2 3 4. simpl.
  f_equal. rewrite H1. simpl. apply insert_insert_eq.
Qed.

Lemma py_index_in_range {A} (l : list A) (idx : Z) :
  0 ≤ idx < py_len l →
  ∃ item, l !! Z.to_nat idx = Some item ∧ py_index l idx = Ok item.
Proof.
  intros Hrange. unfold py_len in Hrange.
  destruct (lookup_lt_is_Some_2 l (Z.to_nat idx)) as [item Hitem]; [lia|].
  exists item. split; [done|]. unfold py_index. cbn zeta.
  rewrite (bool_decide_eq_false_2 (idx < 0)) by lia.
  rewrite bool_decide_eq_true_2 by lia.
  by rewrite Hitem.
Qed.

Section pass_facts.
Variable selectbox : Z → nat → string.
Variable clock : Z → string.

(** The loop body, case by case. *)
Lemma label_sample_step user idx st :
  label_sample selectbox clock user idx st
  = if bool_decide (idx < py_len (all_data st)) then
      match py_index (all_data st) idx with
      | Ok item =>
          let label := selectbox idx (current_index (existing_label (labels st) idx)) in
          (if decide (label ≠ existing_label (labels st) idx) then
             State (all_data st) (user_assignments st)
                   (write_label (labels st) idx label user (clock idx))
                   (policy_image st)
                   (<[LABEL_FILE :=
                        LabelsJson (write_label (labels st) idx label user (clock idx))]>
                      (files st))
           else st,
           Ok [Shown idx item label])
      | Raise e => (st, Raise e)
      end
    else (st, Ok []).
Proof.
  unfold label_sample.
  unfold mbind, M_bind, get_state, lift, modify, save_data, mret, M_ret.
  case_bool_decide; [|done].
  destruct (py_index (all_data st) idx) as [item|e]; [|done].
  cbn zeta. by case_decide.
Qed.

Lemma label_sample_written user idx st :
  ledger_written st (label_sample selectbox clock user idx st).1.
Proof.
  rewrite label_sample_step. case_bool_decide; [|by left].
  destruct (py_index (all_data st) idx) as [item|e]; [|by left].
  cbn zeta. case_decide; [by right|by left].
Qed.

Lemma label_loop_written user assigned_indices st :
  ledger_written st (label_loop selectbox clock user assigned_indices st).1.
Proof.
  revert st. induction assigned_indices as [|idx rest IH]; intros st; cbn [label_loop].
  - by left.
  - rewrite M_bind_run.
    pose proof (label_sample_written user idx st) as Hstep.
    destruct (label_sample selectbox clock user idx st) as [st1 [here|e]];
      cbn [fst snd] in *; [|done].
    rewrite M_bind_run. pose proof (IH st1) as Hrest.
    destruct (label_loop selectbox clock user rest st1) as [st2 [later|e]];
      unfold mret, M_ret; cbn [fst snd] in *; by eapply ledger_written_trans.
Qed.

(** X11. Whatever the select boxes return, and also when it raises, a pass
    of the labeler interface either leaves the whole state as it was or
    changes the ledger only, and then [labels.json] holds exactly the new
    ledger: the samples, the assignment map, the policy image and every
    other file are never written. *)
Theorem labeler_interface_writes_ledger_only (user : string) (st : state) :
  ledger_written st (labeler_interface selectbox clock user st).1.
Proof.
  unfold labeler_interface, show_info_popup.
  unfold mbind, M_bind, get_state, lift, mret, M_ret.
  repeat case_decide; try by left.
  destruct (dict_get user (user_assignments st)) as [assigned_indices|]; simpl;
    [|by left].
  case_bool_decide; simpl.
  - unfold py_truediv. case_decide; simpl; [by left|]. apply label_loop_written.
  - apply label_loop_written.
Qed.

(** The ledger key of an index that the loop does not visit is not touched. *)
Lemma label_loop_key_frame user assigned_indices st idx :
  idx ∉ assigned_indices →
  labels (label_loop selectbox clock user assigned_indices st).1 !! py_str idx
  = labels st !! py_str idx.
Proof.
  revert st. induction assigned_indices as [|i rest IH]; intros st Hout;
    cbn [label_loop]; [done|].
  apply not_elem_of_cons in Hout as [Hne Hout].
  rewrite M_bind_run.
  pose proof (label_sample_run selectbox clock user i st) as (_ & Hlabels & _).
  assert (Hkey : labels (label_sample selectbox clock user i st).1 !! py_str idx
                 = labels st !! py_str idx).
  { destruct Hlabels as [->|[_ ->]]; [done|].
    apply set_label_other. intros ?%py_str_inj. done. }
  destruct (label_sample selectbox clock user i st) as [st1 [here|e]];
    cbn [fst snd] in *; [|done].
  rewrite M_bind_run. pose proof (IH st1 Hout) as Hrest.
  destruct (label_loop selectbox clock user rest st1) as [st2 [later|e]];
    unfold mret, M_ret; cbn [fst snd] in *; congruence.
Qed.

Lemma label_loop_all_data user assigned_indices st :
  all_data (label_loop selectbox clock user assigned_indices st).1 = all_data st.
Proof.
  destruct (label_loop_written user assigned_indices st) as [-> | ->]; done.
Qed.

(** When every assigned index lies in [0, len(all_data)) the loop never
    raises: it draws one expander per assigned index, in the order of the
    sequence, each showing the sample stored at that index. *)
Lemma label_loop_in_range (user : string)
    (assigned_indices : list Z) (st : state) :
  (∀ idx, idx ∈ assigned_indices → 0 ≤ idx < py_len (all_data st)) →
  ∃ drawn,
    (label_loop selectbox clock user assigned_indices st).2 = Ok drawn ∧
    shown_idx <$> drawn = assigned_indices ∧
    ∀ s, s ∈ drawn → all_data st !! Z.to_nat (shown_idx s) = Some (shown_item s).
Proof.
  revert st. induction assigned_indices as [|idx rest IH]; intros st Hrange;
    cbn [label_loop].
  - exists []. split; [done|]. split; [done|]. by intros s ?%elem_of_nil.
  - rewrite M_bind_run.
    destruct (py_index_in_range (all_data st) idx) as (item & Hitem & Hindex);
      [apply Hrange; by left|].
    pose proof (label_sample_written user idx st) as Hwritten.
    pose proof (label_sample_step user idx st) as Hstep.
    rewrite bool_decide_eq_true_2, Hindex in Hstep by (apply Hrange; by left).
    cbn zeta in Hstep.
    destruct (label_sample selectbox clock user idx st) as [st1 r] eqn:Hrun.
    assert (r = Ok [Shown idx item
                      (selectbox idx (current_index (existing_label (labels st) idx)))])
      as -> by (by case_decide; simplify_eq).
    cbn [fst] in Hwritten.
    assert (all_data st1 = all_data st) as Hdata
      by (by destruct Hwritten as [Hw|Hw]; rewrite Hw).
    cbv beta iota. rewrite M_bind_run.
    destruct (IH st1) as (later & Hlater & Hidx & Hitems).
    { intros i Hi. rewrite Hdata. apply Hrange. by right. }
    destruct (label_loop selectbox clock user rest st1) as [st2 r2];
      cbn [fst snd] in *. subst r2.
    eexists. split; [reflexivity|]. split; [by rewrite <-Hidx|].
    intros s [->|Hs]%elem_of_cons; [done|]. rewrite <-Hdata. by apply Hitems.
Qed.

(** X13. After a pass over pairwise distinct indices the ledger agrees with
    the screen: for every drawn sample the label stored for its index, read
    with the unset default, is the label its select box returned. *)
Theorem label_loop_ledger_matches_selection (user : string)
    (assigned_indices : list Z) (st : state) :
  NoDup assigned_indices →
  ∀ drawn s,
    (label_loop selectbox clock user assigned_indices st).2 = Ok drawn →
    s ∈ drawn →
    existing_label (labels (label_loop selectbox clock user assigned_indices st).1)
                   (shown_idx s)
    = shown_label s.
Proof.
  revert st. induction assigned_indices as [|idx rest IH]; intros st Hnodup drawn s;
    cbn [label_loop].
  - unfold mret, M_ret. cbn [fst snd]. by intros [= <-] ?%elem_of_nil.
  - apply NoDup_cons in Hnodup as [Hfresh Hnodup].
    rewrite M_bind_run.
    pose proof (label_sample_run selectbox clock user idx st) as (_ & Hlabels & Hhere).
    pose proof (label_sample_step user idx st) as Hstep.
    pose proof (label_loop_key_frame user rest
                  (label_sample selectbox clock user idx st).1 idx Hfresh) as Hframe.
    destruct (label_sample selectbox clock user idx st) as [st1 [here|e]];
      cbn [fst snd] in *; [|by intros [=]].
    rewrite M_bind_run. specialize (IH st1 Hnodup).
    destruct (label_loop selectbox clock user rest st1) as [st2 [later|e]];
      cbn [fst snd] in *; [|by intros [=]].
    unfold mret, M_ret. cbn [fst snd].
    intros [= <-] [Hs|Hs]%elem_of_app; [|by apply (IH later)].
    destruct (Hhere here s eq_refl Hs) as [Hidx Hlt].
    unfold existing_label at 1. rewrite Hidx.
    rewrite (label_value_other _ _ _ Hframe). fold (existing_label (labels st1) idx).
    rewrite bool_decide_eq_true_2 in Hstep by done.
    destruct (py_index (all_data st) idx) as [item|e]; [|done].
    cbn zeta in Hstep.
    assert (here = [Shown idx item
                      (selectbox idx (current_index (existing_label (labels st) idx)))])
      as -> by (by case_decide; simplify_eq).
    apply list_elem_of_singleton in Hs as ->. cbn [shown_label].
    assert (labels st1 = set_label (labels st) idx
              (selectbox idx (current_index (existing_label (labels st) idx)))
              user (clock idx)) as ->.
    { unfold set_label. case_decide; by simplify_eq. }
    apply existing_label_set_label.
Qed.
End pass_facts.

Lemma label_loop_ledger_matches_selection_witness :
  NoDup [0] ∧
  ∀ drawn s,
    (label_loop (λ _ _, "정책"%string) (λ _, "2026-01-01 12:00:00"%string) "user_2" [0]
       two_labelers_state).2 = Ok drawn →
    s ∈ drawn →
    existing_label
      (labels (label_loop (λ _ _, "정책"%string) (λ _, "2026-01-01 12:00:00"%string)
                 "user_2" [0] two_labelers_state).1)
      (shown_idx s)
    = shown_label s.
Proof.
  assert (Hnodup : NoDup [0]) by (apply NoDup_singleton).
  split; [done|].
  by apply (label_loop_ledger_matches_selection (λ _ _, "정책"%string)
              (λ _, "2026-01-01 12:00:00"%string) "user_2" [0] two_labelers_state).
Defined.

(** ** Passes in which nobody touches a select box *)

(** The default position of a stored option is that option's position. *)
Lemma untouched_selectbox_default (idx : Z) (existing : string) :
  existing ∈ label_options →
  untouched_selectbox idx (current_index existing) = existing.
Proof.
  unfold label_options. intros Hin.
  repeat (apply elem_of_cons in Hin as [->|Hin]; [by vm_compute|]).
  by apply elem_of_nil in Hin.
Qed.

(** A label that is not an option falls back to position 0, the unset option. *)
Lemma untouched_selectbox_foreign (idx : Z) (existing : string) :
  existing ∉ label_options →
  untouched_selectbox idx (current_index existing) = UNSET.
Proof.
  intros Hout. unfold current_index.
  destruct (list_find (λ o, o = existing) label_options) as [[i o]|] eqn:Hfind.
  - apply list_find_Some in Hfind as (Hi & -> & _).
    destruct Hout. by eapply list_elem_of_lookup_2.
  - done.
Qed.

Section unchanged_pass.
Variable selectbox : Z → nat → string.
Variable clock : Z → string.

Lemma label_loop_unchanged user assigned_indices st :
  (∀ idx, idx ∈ assigned_indices →
     selectbox idx (current_index (existing_label (labels st) idx))
     = existing_label (labels st) idx) →
  (label_loop selectbox clock user assigned_indices st).1 = st.
Proof.
  induction assigned_indices as [|idx rest IH]; intros Hsame; cbn [label_loop]; [done|].
  rewrite M_bind_run.
  assert (Hstep : (label_sample selectbox clock user idx st).1 = st).
  { rewrite label_sample_step. case_bool_decide; [|done].
    destruct (py_index (all_data st) idx); [|done]. cbn zeta.
    rewrite decide_False; [done|]. intros Hne. apply Hne, Hsame. by left. }
  destruct (label_sample selectbox clock user idx st) as [st1 [here|e]];
    cbn [fst snd] in *; [|done]. subst st1.
  rewrite M_bind_run.
  assert (Hrest : (label_loop selectbox clock user rest st).1 = st)
    by (apply IH; intros i Hi; apply Hsame; by right).
  by destruct (label_loop selectbox clock user rest st) as [st2 [later|e]].
Qed.
End unchanged_pass.

(** X14. A pass in which every select box is left at its default position
    writes nothing, provided every stored label is one of the options: the
    whole state, ledger and files included, is as before, so drawing the
    page again does not refresh labelers or timestamps. *)
Theorem untouched_pass_changes_nothing (clock : Z → string) (user : string)
    (st : state) :
  (∀ idx, existing_label (labels st) idx ∈ label_options) →
  (labeler_interface untouched_selectbox clock user st).1 = st.
Proof.
  intros Hoptions.
  unfold labeler_interface, show_info_popup.
  unfold mbind, M_bind, get_state, lift, mret, M_ret.
  repeat case_decide; try done.
  destruct (dict_get user (user_assignments st)) as [assigned_indices|]; simpl;
    [|done].
  assert (Hloop : (label_loop untouched_selectbox clock user assigned_indices st).1 = st).
  { apply label_loop_unchanged. intros idx _. by apply untouched_selectbox_default. }
  case_bool_decide; simpl; [|done].
  unfold py_truediv. by case_decide.
Qed.

Lemma untouched_pass_changes_nothing_witness :
  (∀ idx, existing_label (labels example_state) idx ∈ label_options) ∧
  (labeler_interface untouched_selectbox (λ _, "2026-01-01 12:00:00"%string) "user_1"
     example_state).1 = example_state.
Proof.
  assert (Hoptions : ∀ idx, existing_label (labels example_state) idx ∈ label_options).
  { intros idx. unfold existing_label, label_value, example_state. cbn [labels].
    destruct (decide (py_str idx = "0"%string)) as [->|Hne].
    - rewrite lookup_singleton_eq. vm_compute. do 4 right. left.
    - rewrite lookup_singleton_ne by done. left. }
  split; [done|]. by apply untouched_pass_changes_nothing.
Defined.

(** X15. A stored label that is not one of the options does not survive
    being drawn: the select box falls back to the unset option, which
    differs from the stored label, so drawing the sample without touching
    the select box deletes the entry from the ledger and from
    [labels.json]. *)
Theorem foreign_label_deleted_on_draw (clock : Z → string) (user : string)
    (idx : Z) (st : state) (stored : string) :
  0 ≤ idx < py_len (all_data st) →
  label_value (labels st) idx = Some stored →
  stored ∉ label_options →
  labels (label_sample untouched_selectbox clock user idx st).1
  = delete (py_str idx) (labels st) ∧
  files (label_sample untouched_selectbox clock user idx st).1 !! LABEL_FILE
  = Some (LabelsJson (delete (py_str idx) (labels st))).
Proof.
  intros Hrange Hstored Hforeign.
  destruct (py_index_in_range (all_data st) idx Hrange) as (item & _ & Hindex).
  assert (Hexisting : existing_label (labels st) idx = stored)
    by (unfold existing_label; by rewrite Hstored).
  assert (Hne : UNSET ≠ stored).
  { intros <-. apply Hforeign. left. }
  rewrite label_sample_step.
  rewrite bool_decide_eq_true_2, Hindex by lia. cbn zeta.
  rewrite Hexisting, untouched_selectbox_foreign by done.
  rewrite decide_True by done. cbn [fst labels files].
  rewrite write_label_eq, decide_True by done.
  by rewrite lookup_insert_eq.
Qed.

Lemma foreign_label_deleted_on_draw_witness :
  (0 ≤ 0 < py_len (all_data foreign_label_state)) ∧
  label_value (labels foreign_label_state) 0 = Some "old"%string ∧
  ("old"%string ∉ label_options) ∧
  labels (label_sample untouched_selectbox (λ _, "2026-01-01 12:00:00"%string) "user_1" 0
            foreign_label_state).1
  = delete (py_str 0) (labels foreign_label_state).
Proof.
  assert (Hout : "old"%string ∉ label_options).
  { unfold label_options. intros Hin.
    repeat (apply elem_of_cons in Hin as [Heq|Hin]; [by vm_compute in Heq|]).
    by apply elem_of_nil in Hin. }
  assert (Hrange : 0 ≤ 0 < py_len (all_data foreign_label_state)) by (by vm_compute).
  split; [done|]. split; [done|]. split; [done|].
  by destruct (foreign_label_deleted_on_draw (λ _, "2026-01-01 12:00:00"%string)
                 "user_1" 0 foreign_label_state "old" Hrange eq_refl Hout) as [Hdel _].
Defined.

(** ** Indices below zero *)

Section negative_index.
Variable selectbox : Z → nat → string.
Variable clock : Z → string.

(** X16. The guard of line 292 bounds the index from above only.  A
    negative assigned index passes it: when it is at least [-len(all_data)]
    the sample counted from the end of the store is drawn under that
    negative index, and below that the read raises [IndexError] with the
    state as it was. *)
Theorem label_sample_negative_index (user : string) (idx : Z) (st : state) :
  idx < 0 →
  (idx < - py_len (all_data st) →
     label_sample selectbox clock user idx st = (st, Raise IndexError)) ∧
  (- py_len (all_data st) ≤ idx →
     ∃ item,
       all_data st !! Z.to_nat (py_len (all_data st) + idx) = Some item ∧
       (label_sample selectbox clock user idx st).2
       = Ok [Shown idx item
               (selectbox idx (current_index (existing_label (labels st) idx)))]).
Proof.
  intros Hneg.
  assert (Hlen : 0 ≤ py_len (all_data st)) by (unfold py_len; lia).
  split.
  - intros Hlow. rewrite label_sample_step.
    rewrite bool_decide_eq_true_2 by lia.
    unfold py_index. cbn zeta. fold (py_len (all_data st)).
    rewrite (bool_decide_eq_true_2 (idx < 0)) by done.
    by rewrite bool_decide_eq_false_2 by lia.
  - intros Hwrap. rewrite label_sample_step.
    rewrite bool_decide_eq_true_2 by lia.
    destruct (lookup_lt_is_Some_2 (all_data st)
                (Z.to_nat (py_len (all_data st) + idx))) as [item Hitem];
      [unfold py_len in *; lia|].
    exists item. split; [done|].
    unfold py_index. cbn zeta. fold (py_len (all_data st)).
    rewrite (bool_decide_eq_true_2 (idx < 0)) by done.
    rewrite bool_decide_eq_true_2 by lia. rewrite Hitem. cbn zeta.
    by case_decide.
Qed.
End negative_index.

Lemma label_sample_negative_index_witness :
  -2 < 0 ∧
  label_sample untouched_selectbox (λ _, "2026-01-01 12:00:00"%string) "user_1" (-2)
    foreign_label_state
  = (foreign_label_state, Raise IndexError).
Proof.
  split; [lia|].
  apply (label_sample_negative_index untouched_selectbox
           (λ _, "2026-01-01 12:00:00"%string) "user_1" (-2) foreign_label_state);
    [lia|by vm_compute].
Defined.

(** ** The policy image *)


(** X18. The uploader checks the extension only.  A file that is not an
    image is written to [policy_image.png] before [Image.open] raises, so
    the exception leaves the file behind while the session keeps its old
    policy image. *)
Theorem save_policy_image_keeps_bad_file (policy_img : content) (st : state) :
  (∀ img, policy_img ≠ ImageFile img) →
  save_policy_image policy_img st
  = (State (all_data st) (user_assignments st) (labels st) (policy_image st)
           (<[POLICY_IMAGE := policy_img]> (files st)),
     Raise UnidentifiedImageError).
Proof.
  intros Hbad.
  unfold save_policy_image, save_image, image_open.
  unfold mbind, M_bind, get_state, lift, modify, mret, M_ret. cbn [files set_files].
  rewrite lookup_insert_eq. destruct policy_img; try done. by destruct (Hbad img).
Qed.

Lemma save_policy_image_keeps_bad_file_witness :
  (∀ img, SamplesJson [] ≠ ImageFile img) ∧
  save_policy_image (SamplesJson []) example_state
  = (State (all_data example_state) (user_assignments example_state)
           (labels example_state) (policy_image example_state)
           (<[POLICY_IMAGE := SamplesJson []]> (files example_state)),
     Raise UnidentifiedImageError).
Proof.
  assert (Hbad : ∀ img, SamplesJson [] ≠ ImageFile img) by done.
  split; [done|]. by apply save_policy_image_keeps_bad_file.
Defined.

(** X19. While [policy_image.png] holds something that is not an image the
    reset cannot be done: [clear_all_data] raises at [Image.open], before
    the removal loop, so no file is deleted and the session keeps its
    samples, assignments and ledger; [get_policy_image] raises as well. *)
Theorem clear_all_data_blocked_by_bad_policy_file (policy_file : content) (st : state) :
  files st !! POLICY_IMAGE = Some policy_file →
  (∀ img, policy_file ≠ ImageFile img) →
  clear_all_data st = (st, Raise UnidentifiedImageError) ∧
  get_policy_image (files st) = Raise UnidentifiedImageError.
Proof.
  intros Hfile Hbad.
  unfold clear_all_data, get_policy_image, path_exists, image_open.
  unfold mbind, M_bind, get_state, lift. rewrite Hfile.
  rewrite bool_decide_eq_true_2 by eauto.
  destruct policy_file; try done. by destruct (Hbad img).
Qed.

Lemma clear_all_data_blocked_by_bad_policy_file_witness :
  files (save_policy_image (SamplesJson []) example_state).1 !! POLICY_IMAGE
  = Some (SamplesJson []) ∧
  (∀ img, SamplesJson [] ≠ ImageFile img) ∧
  clear_all_data (save_policy_image (SamplesJson []) example_state).1
  = ((save_policy_image (SamplesJson []) example_state).1, Raise UnidentifiedImageError).
Proof.
  assert (Hfile : files (save_policy_image (SamplesJson []) example_state).1
                    !! POLICY_IMAGE = Some (SamplesJson [])) by (by vm_compute).
  assert (Hbad : ∀ img, SamplesJson [] ≠ ImageFile img) by done.
  split; [done|]. split; [done|].
  by destruct (clear_all_data_blocked_by_bad_policy_file _ _ Hfile Hbad) as [Hrun _].
Defined.

(** ** Resetting twice *)



(** ** The host's progress section, when it succeeds *)

Lemma host_progress_lines_ok (labels : ledger) (items : list (string * list Z)) :
  (∀ user assigned, (user, assigned) ∈ items → assigned ≠ []) →
  host_progress_lines labels items
  = Ok ((λ '(user, assigned),
           (user, calculate_progress labels user assigned, py_len assigned,
            Qmake (calculate_progress labels user assigned)
                  (Z.to_pos (py_len assigned)))) <$> items).
Proof.
  induction items as [|[user assigned] items IH]; intros Hfull; [done|].
  cbn [host_progress_lines]. unfold py_truediv.
  assert (0 < py_len assigned) as Hpos.
  { destruct assigned as [|i assigned]; [by destruct (Hfull user []); [left|]|].
    unfold py_len. simpl. lia. }
  rewrite decide_False by lia. cbn [mbind result_bind].
  rewrite IH by (intros u a Hin; apply (Hfull u); by right).
  cbn [mbind result_bind fmap list_fmap]. do 4 f_equal; lia.
Qed.



(** ** Export and the ledger *)

Lemma entry_field_other (labels labels' : ledger) idx key :
  labels' !! py_str idx = labels !! py_str idx →
  entry_field labels' idx key = entry_field labels idx key.
Proof. unfold entry_field. by intros ->. Qed.

(** X22. A labeling action on index [idx] changes at most row [idx] of the
    export: every other row is the same before and after, and an action on
    an index outside the sample store changes no row at all. *)
Theorem export_changes_only_labelled_row (all_data : list sample) (labels : ledger)
    (idx : Z) (label user now : string) :
  (∀ i : nat,
     Z.of_nat i ≠ idx →
     save_labels_to_excel all_data (set_label labels idx label user now) !! i
     = save_labels_to_excel all_data labels !! i) ∧
  (¬ (0 ≤ idx < py_len all_data) →
     save_labels_to_excel all_data (set_label labels idx label user now)
     = save_labels_to_excel all_data labels).
Proof.
  assert (Hrow : ∀ i : nat,
     Z.of_nat i ≠ idx →
     save_labels_to_excel all_data (set_label labels idx label user now) !! i
     = save_labels_to_excel all_data labels !! i).
  { intros i Hne. unfold save_labels_to_excel. rewrite !list_lookup_imap.
    destruct (all_data !! i) as [item|]; [|done]. simpl.
    assert (Hkey : set_label labels idx label user now !! py_str (Z.of_nat i)
                   = labels !! py_str (Z.of_nat i))
      by (apply set_label_other; intros ?%py_str_inj; done).
    by rewrite !(entry_field_other _ _ _ _ Hkey). }
  split; [done|]. intros Hout. apply list_eq. intros i.
  destruct (decide (Z.of_nat i = idx)) as [<-|Hne]; [|by apply Hrow].
  unfold save_labels_to_excel. rewrite !list_lookup_imap.
  rewrite lookup_ge_None_2; [done|]. unfold py_len in Hout. lia.
Qed.

Lemma export_changes_only_labelled_row_witness :
  Z.of_nat 0 ≠ 1 ∧
  save_labels_to_excel [Sample "q0" "a0"; Sample "q1" "a1"]
    (set_label ∅ 1 "X" "user_1" "2026-01-01 10:00:00") !! 0%nat
  = save_labels_to_excel [Sample "q0" "a0"; Sample "q1" "a1"] ∅ !! 0%nat.
Proof.
  split; [done|].
  by apply (export_changes_only_labelled_row
              [Sample "q0" "a0"; Sample "q1" "a1"] ∅ 1 "X" "user_1"
              "2026-01-01 10:00:00").
Defined.

(** ** Uploads and what is already there *)

Section upload_more.
Variable json_loads : string → result (list sample).

Lemma upload_run uploaded_files parsed timestamp st :
  Forall2 (λ file content, json_loads file = Ok content) uploaded_files parsed →
  upload json_loads uploaded_files timestamp st
  = (State (all_data st ++ concat parsed) (user_assignments st) (labels st)
           (policy_image st)
           (<[data_file timestamp := SamplesJson (concat parsed)]> (files st)),
     Ok (py_len (concat parsed))).
Proof.
  intros Hall. unfold upload, mbind, M_bind, lift.
  by rewrite (read_uploads_ok _ _ _ _ Hall).
Qed.

(** X23. An upload that parses only appends: every sample keeps its index,
    so the rows exported before the upload are the first rows exported
    after it, unchanged, followed by one row per new sample. *)
Theorem upload_keeps_exported_rows uploaded_files parsed timestamp st :
  Forall2 (λ file content, json_loads file = Ok content) uploaded_files parsed →
  let st' := (upload json_loads uploaded_files timestamp st).1 in
  ∃ rows,
    save_labels_to_excel (all_data st') (labels st')
    = save_labels_to_excel (all_data st) (labels st) ++ rows ∧
    length rows = length (concat parsed).
Proof.
  intros Hall st'. unfold st'. rewrite (upload_run _ _ _ _ Hall). cbn [fst all_data labels].
  unfold save_labels_to_excel. rewrite imap_app.
  eexists. split; [reflexivity|]. by rewrite length_imap.
Qed.

(** X24. The batch file is named after the second of the upload.  A second
    upload with the same timestamp overwrites the file of the first: the
    session then holds the samples of both batches while the data directory
    holds those of the second batch only. *)
Theorem upload_same_timestamp_overwrites files1 parsed1 files2 parsed2 timestamp st :
  Forall2 (λ file content, json_loads file = Ok content) files1 parsed1 →
  Forall2 (λ file content, json_loads file = Ok content) files2 parsed2 →
  let st2 := (upload json_loads files2 timestamp
                (upload json_loads files1 timestamp st).1).1 in
  all_data st2 = all_data st ++ concat parsed1 ++ concat parsed2 ∧
  files st2 = <[data_file timestamp := SamplesJson (concat parsed2)]> (files st).
Proof.
  intros Hall1 Hall2 st2. unfold st2.
  rewrite (upload_run _ _ _ _ Hall1). cbn [fst].
  rewrite (upload_run _ _ _ _ Hall2). cbn [fst all_data files].
  split; [by rewrite app_assoc|]. apply insert_insert_eq.
Qed.
End upload_more.

Lemma upload_keeps_exported_rows_witness :
  Forall2 (λ file content, example_json_loads file = Ok content)
          ["[{sample}]"]%string [[Sample "q" "a"]] ∧
  ∃ rows,
    save_labels_to_excel
      (all_data (upload example_json_loads ["[{sample}]"]%string "20260101_100000"
                   example_state).1)
      (labels (upload example_json_loads ["[{sample}]"]%string "20260101_100000"
                 example_state).1)
    = save_labels_to_excel (all_data example_state) (labels example_state) ++ rows ∧
    length rows = length (concat [[Sample "q" "a"]]).
Proof.
  assert (Hall : Forall2 (λ file content, example_json_loads file = Ok content)
                         ["[{sample}]"]%string [[Sample "q" "a"]])
    by (repeat constructor).
  split; [done|].
  by apply (upload_keeps_exported_rows example_json_loads _ _ "20260101_100000"
              example_state Hall).
Defined.

Lemma upload_same_timestamp_overwrites_witness :
  Forall2 (λ file content, example_json_loads file = Ok content)
          ["[{sample}]"]%string [[Sample "q" "a"]] ∧
  Forall2 (λ file content, example_json_loads file = Ok content)
          ["[]"]%string [[]] ∧
  files (upload example_json_loads ["[]"]%string "20260101_100000"
           (upload example_json_loads ["[{sample}]"]%string "20260101_100000"
              one_sample_state).1).1
  = <[data_file "20260101_100000" := SamplesJson (concat [[]])]> (files one_sample_state).
Proof.
  assert (Hall1 : Forall2 (λ file content, example_json_loads file = Ok content)
                          ["[{sample}]"]%string [[Sample "q" "a"]])
    by (repeat constructor).
  assert (Hall2 : Forall2 (λ file content, example_json_loads file = Ok content)
                          ["[]"]%string [[]])
    by (repeat constructor).
  split; [done|]. split; [done|].
  by destruct (upload_same_timestamp_overwrites example_json_loads _ _ _ _
                 "20260101_100000" one_sample_state Hall1 Hall2) as [_ Hfiles].
Defined.

(** ** The labeler interface after a distribution *)

Section after_distribution.
Variable selectbox : Z → nat → string.
Variable clock : Z → string.

(** X12. After the host has distributed a non-empty sample store over at
    least one labeler, the labeler interface of every labeler of the new map
    runs without raising: it draws one expander per assigned index, in the
    order of the labeler's sequence, each showing the sample stored at that
    index. *)
Theorem labeler_interface_after_distribution (num_users : Z) (st : state)
    (user : string) (assigned_indices : list Z) :
  1 ≤ num_users → all_data st ≠ [] → user ≠ ""%string →
  dict_get user (user_assignments (distribute num_users st).1) = Some assigned_indices →
  ∃ drawn,
    (labeler_interface selectbox clock user (distribute num_users st).1).2 = Ok drawn ∧
    shown_idx <$> drawn = assigned_indices ∧
    ∀ s, s ∈ drawn → all_data st !! Z.to_nat (shown_idx s) = Some (shown_item s).
Proof.
  intros Hnum Hdata Huser.
  destruct (assign_data_values (py_len (all_data st)) num_users)
    as (assignments & Hrun & _ & _); [unfold py_len; lia|done|].
  assert (Hdist : (distribute num_users st).1
                  = State (all_data st) assignments (labels st) (policy_image st)
                          (<[ASSIGNMENTS_FILE := AssignmentsJson assignments]> (files st))).
  { unfold distribute, mbind, M_bind, get_state, lift, modify, save_data.
    by rewrite Hrun. }
  rewrite Hdist. cbn [user_assignments]. intros Hget.
  set (st1 := State (all_data st) assignments (labels st) (policy_image st)
                    (<[ASSIGNMENTS_FILE := AssignmentsJson assignments]> (files st))).
  destruct (label_loop_in_range selectbox clock user assigned_indices st1)
    as (drawn & Hloop & Hidx & Hitems).
  { intros idx Hidx. cbn [st1 all_data].
    eapply (assign_data_in_range (py_len (all_data st)) num_users);
      [unfold py_len; lia|done|done|by apply dict_get_elem_of|done]. }
  exists drawn. split; [|by split].
  unfold labeler_interface, show_info_popup.
  unfold mbind, M_bind, get_state, lift, mret, M_ret. cbn [st1 all_data user_assignments].
  rewrite decide_False by done.
  rewrite decide_False by (intros ->; done).
  rewrite decide_False by done.
  rewrite Hget. cbn [from_option].
  case_bool_decide as Hpos; cbn [labels].
  - unfold py_truediv. rewrite decide_False by lia. done.
  - done.
Qed.
End after_distribution.

Lemma labeler_interface_after_distribution_witness :
  1 ≤ 2 ∧ all_data one_sample_state ≠ [] ∧ ("user_2" : string) ≠ ""%string ∧
  dict_get "user_2" (user_assignments (distribute 2 one_sample_state).1) = Some [0] ∧
  ∃ drawn,
    (labeler_interface untouched_selectbox (λ _, "2026-01-01 12:00:00"%string) "user_2"
       (distribute 2 one_sample_state).1).2 = Ok drawn ∧
    shown_idx <$> drawn = [0] ∧
    ∀ s, s ∈ drawn → all_data one_sample_state !! Z.to_nat (shown_idx s)
                     = Some (shown_item s).
Proof.
  assert (Hget : dict_get "user_2" (user_assignments (distribute 2 one_sample_state).1)
                 = Some [0]) by (by vm_compute).
  split; [lia|]. split; [done|]. split; [done|]. split; [done|].
  by apply (labeler_interface_after_distribution untouched_selectbox
              (λ _, "2026-01-01 12:00:00"%string) 2 one_sample_state "user_2" [0]).
Defined.

(** ** Samples uploaded after a distribution *)

Section upload_after_distribution.
Variable json_loads : string → result (list sample).

(** X25. An upload does not touch the assignment map.  After a distribution
    followed by an upload that parses, every assigned index is still below
    the length the sample store had at the distribution, so the samples of
    the new batch are in no labeler's sequence until the host distributes
    again. *)
Theorem upload_after_distribution_unassigned (num_users : Z) (st : state)
    (uploaded_files : list string) (parsed : list (list sample)) (timestamp : string) :
  1 ≤ num_users →
  Forall2 (λ file content, json_loads file = Ok content) uploaded_files parsed →
  let distributed := (distribute num_users st).1 in
  let uploaded := (upload json_loads uploaded_files timestamp distributed).1 in
  user_assignments uploaded = user_assignments distributed ∧
  all_data uploaded = all_data st ++ concat parsed ∧
  ∀ user assigned idx,
    (user, assigned) ∈ user_assignments uploaded → idx ∈ assigned →
    0 ≤ idx < py_len (all_data st).
Proof.
  intros Hnum Hall distributed uploaded.
  destruct (assign_data_values (py_len (all_data st)) num_users)
    as (assignments & Hrun & _ & _); [unfold py_len; lia|done|].
  assert (Hdist : distributed
                  = State (all_data st) assignments (labels st) (policy_image st)
                          (<[ASSIGNMENTS_FILE := AssignmentsJson assignments]> (files st))).
  { unfold distributed, distribute, mbind, M_bind, get_state, lift, modify, save_data.
    by rewrite Hrun. }
  unfold uploaded. rewrite (upload_run json_loads _ _ _ _ Hall). cbn [fst user_assignments all_data].
  rewrite Hdist. cbn [user_assignments all_data].
  split; [done|]. split; [done|].
  intros user assigned idx Hin Hidx.
  eapply (assign_data_in_range (py_len (all_data st)) num_users);
    [unfold py_len; lia|done|done|done|done].
Qed.
End upload_after_distribution.

Lemma upload_after_distribution_unassigned_witness :
  1 ≤ 2 ∧
  Forall2 (λ file content, example_json_loads file = Ok content)
          ["[{sample}]"]%string [[Sample "q" "a"]] ∧
  user_assignments
    (upload example_json_loads ["[{sample}]"]%string "20260101_100000"
       (distribute 2 one_sample_state).1).1
  = user_assignments (distribute 2 one_sample_state).1.
Proof.
  assert (Hall : Forall2 (λ file content, example_json_loads file = Ok content)
                         ["[{sample}]"]%string [[Sample "q" "a"]])
    by (repeat constructor).
  split; [lia|]. split; [done|].
  destruct (upload_after_distribution_unassigned example_json_loads 2 one_sample_state
              _ _ "20260101_100000" ltac:(lia) Hall) as [Hsame _].
  exact Hsame.
Defined.

(** ** The interfaces after a reset *)

Section after_reset.
Variable selectbox : Z → nat → string.
Variable clock : Z → string.

End after_reset.

